(** * Event generators of simulation_scripts

    A shallow embedding of the two generator steps

      - [steps/step_0_cascade_simulation.py]  (class CascadeFactory, main)
      - [steps/step_0_muon_resimulation.py]   (create_muon, class
        ParticleMultiplier, main)

    and the properties of their natural-language specification.

    Conventions of the embedding.

    - Python floats are modelled by exact rationals [Q]: the arithmetic of the
      generators is the arithmetic of the reals, rounding is not modelled.
      Numeric results are therefore compared with [==] ([Qeq]).
    - The random service ([random_service.uniform], [random_service.integer])
      is an interface, [RandomService]; its state is threaded explicitly.  The
      monad [M] carries that state, the exception raised (if any) and the list
      of draws made, in the order they were made.
    - Exceptions keep the names of the Python classes that the code raises.
    - IceTray itself (I3Units, I3Constants, I3Particle, I3MCTree, the tray that
      calls Configure and DAQ) is not part of the repository; the file models
      the part of it the generators rely on, and says so where it does. *)

From Stdlib Require Import QArith ZArith List String Ascii Bool Lia Lqa.
Import ListNotations.

Open Scope Q_scope.

(** ** IceTray: units and constants *)

(** IceTray's unit table.  Metre, nanosecond and GeV are base units of the
    table (the factor is one).  The degree is [pi/180], which no rational
    equals: it is a parameter ([deg]) of the definitions below. *)
Module I3Units.
Definition m : Q := 1.
Definition ns : Q := 1.
Definition GeV : Q := 1.
End I3Units.

(** [I3Constants.c], the speed of light in metre per nanosecond. *)
Module I3Constants.
Definition c : Q := 299792458 # 1000000000.
End I3Constants.

(** ** Data model: particles and trees *)

Inductive ParticleType : Type :=
| unknown | NuE | NuMu | NuTau | EMinus | MuMinus | TauMinus | Hadrons.

Inductive ParticleShape : Type :=
| Null | Cascade | InfiniteTrack.

Inductive LocationType : Type :=
| Anywhere | InIce.

Record I3Position : Type := mkPosition { px : Q; py : Q; pz : Q }.

(** [I3Direction(zenith, azimuth)]: the pair of angles, in radian. *)
Record I3Direction : Type := mkDirection { zenith : Q; azimuth : Q }.

(** The fields of an [I3Particle] that the generators assign or read. *)
Record I3Particle : Type := mkParticle {
  type : ParticleType;
  shape : ParticleShape;
  location_type : LocationType;
  pos : I3Position;
  dir : I3Direction;
  time : Q;
  energy : Q;
  speed : Q
}.

(** [dataclasses.I3Particle()]: unknown type, null shape, speed of light.  The
    numeric fields of a fresh particle are NaN in IceTray; the generators
    assign every one of them before the particle is used, and the model
    starts them at zero. *)
Definition I3Particle_new : I3Particle :=
  {| type := unknown; shape := Null; location_type := Anywhere;
     pos := mkPosition 0 0 0; dir := mkDirection 0 0;
     time := 0; energy := 0; speed := I3Constants.c |}.

Definition set_type (p : I3Particle) (t : ParticleType) : I3Particle :=
  {| type := t; shape := shape p; location_type := location_type p;
     pos := pos p; dir := dir p; time := time p; energy := energy p;
     speed := speed p |}.

Definition set_shape (p : I3Particle) (s : ParticleShape) : I3Particle :=
  {| type := type p; shape := s; location_type := location_type p;
     pos := pos p; dir := dir p; time := time p; energy := energy p;
     speed := speed p |}.

Definition set_location_type (p : I3Particle) (l : LocationType) : I3Particle :=
  {| type := type p; shape := shape p; location_type := l;
     pos := pos p; dir := dir p; time := time p; energy := energy p;
     speed := speed p |}.

Definition set_pos (p : I3Particle) (x : I3Position) : I3Particle :=
  {| type := type p; shape := shape p; location_type := location_type p;
     pos := x; dir := dir p; time := time p; energy := energy p;
     speed := speed p |}.

Definition set_dir (p : I3Particle) (d : I3Direction) : I3Particle :=
  {| type := type p; shape := shape p; location_type := location_type p;
     pos := pos p; dir := d; time := time p; energy := energy p;
     speed := speed p |}.

Definition set_time (p : I3Particle) (t : Q) : I3Particle :=
  {| type := type p; shape := shape p; location_type := location_type p;
     pos := pos p; dir := dir p; time := t; energy := energy p;
     speed := speed p |}.

Definition set_energy (p : I3Particle) (e : Q) : I3Particle :=
  {| type := type p; shape := shape p; location_type := location_type p;
     pos := pos p; dir := dir p; time := time p; energy := e;
     speed := speed p |}.

Definition set_speed (p : I3Particle) (v : Q) : I3Particle :=
  {| type := type p; shape := shape p; location_type := location_type p;
     pos := pos p; dir := dir p; time := time p; energy := energy p;
     speed := v |}.

(** An [I3MCTree] as the generators build it: one primary and the children
    appended to it, in the order of the [append_child] calls. *)
Record I3MCTree : Type := mkTree {
  primary : I3Particle;
  children : list I3Particle
}.

Definition add_primary (p : I3Particle) : I3MCTree :=
  {| primary := p; children := [] |}.

Definition append_child (t : I3MCTree) (child : I3Particle) : I3MCTree :=
  {| primary := primary t; children := children t ++ [child] |}.

(** ** Exceptions and the random service *)

Inductive Exception : Type :=
| ValueError (msg : string)
| ZeroDivisionError
| IndexError
| AttributeError (msg : string).

(** The random service handed to the generators: [uniform lo hi] and
    [integer n], each returning the value drawn and the advanced service. *)
Class RandomService (RS : Type) : Type := {
  uniform : Q -> Q -> RS -> Q * RS;
  integer : Z -> RS -> Z * RS
}.

(** One draw: what was asked of the service and what it answered. *)
Inductive Draw : Type :=
| Uniform (range : Q * Q) (value : Q)
| Integer (n : Z) (value : Z).

Section Sampling.

Context {RS : Type} `{RandomService RS}.

(** A computation that may draw from the service and may raise. *)
Definition M (A : Type) : Type := RS -> (Exception + A) * RS * list Draw.

Definition ret {A : Type} (a : A) : M A :=
  fun rs => (inr a, rs, []).

Definition raise {A : Type} (e : Exception) : M A :=
  fun rs => (inl e, rs, []).

Definition bind {A B : Type} (c : M A) (k : A -> M B) : M B :=
  fun rs =>
    match c rs with
    | (inl e, rs1, l1) => (inl e, rs1, l1)
    | (inr a, rs1, l1) =>
        match k a rs1 with
        | (r, rs2, l2) => (r, rs2, l1 ++ l2)
        end
    end.

(** [random_service.uniform( *range )] *)
Definition rs_uniform (range : Q * Q) : M Q :=
  fun rs =>
    match uniform (fst range) (snd range) rs with
    | (v, rs1) => (inr v, rs1, [Uniform range v])
    end.

(** [random_service.integer(n)] *)
Definition rs_integer (n : Z) : M Z :=
  fun rs =>
    match integer n rs with
    | (v, rs1) => (inr v, rs1, [Integer n v])
    end.

End Sampling.

Notation "x <- c ;; k" := (bind c (fun x => k))
  (at level 61, c at next level, right associativity).

(** ** Python primitives used by the generators *)

(** [a / b] on floats (true division): raises on a zero divisor. *)
Definition py_div {RS : Type} (a b : Q) : @M RS Q :=
  if Qeq_bool b 0 then raise ZeroDivisionError else ret (a / b).

(** [l[i]] on a list: a negative index counts from the end, an index out of
    range has no item. *)
Definition getitem {A : Type} (l : list A) (i : Z) : option A :=
  let n := Z.of_nat (List.length l) in
  let j := (if i <? 0 then i + n else i)%Z in
  if ((j <? 0) || (n <=? j))%Z then None else nth_error l (Z.to_nat j).

Definition py_getitem {RS : Type} {A : Type} (l : list A) (i : Z) : @M RS A :=
  match getitem l i with
  | Some a => ret a
  | None => raise IndexError
  end.

(** [str.lower()] on the ASCII letters. *)
Definition lower_ascii (ch : ascii) : ascii :=
  let n := nat_of_ascii ch in
  if ((65 <=? n) && (n <=? 90))%nat then ascii_of_nat (n + 32) else ch.

Fixpoint lower (s : string) : string :=
  match s with
  | EmptyString => EmptyString
  | String ch s' => String (lower_ascii ch) (lower s')
  end.

(** [x in l] for a list of strings. *)
Fixpoint str_in (x : string) (l : list string) : bool :=
  match l with
  | [] => false
  | y :: l' => if String.eqb x y then true else str_in x l'
  end.

(** [{!r}] of a string of plain characters. *)
Definition repr (s : string) : string := ("'" ++ s ++ "'")%string.

(** ** The tray, as far as a generator module sees it *)

(** How a run of the tray ended: the module requested suspension, a call
    raised, or the loop was cut by the fuel of the model. *)
Inductive Outcome : Type :=
| Suspended
| Raised (e : Exception)
| Running.

Section Tray.

Context {RS : Type} `{RandomService RS}.

(** What a run leaves behind: the frames pushed (their trees), how the run
    ended, the draws made and the random service as advanced. *)
Record Run : Type := mkRun {
  frames : list I3MCTree;
  outcome : Outcome;
  draws : list Draw;
  service : RS
}.

(** [tray.Execute()] with an [I3InfiniteSource] in front of the module: DAQ
    is called on one frame after the other until the module requests
    suspension or a call raises.  A call of [daq] returns the tree pushed,
    whether [RequestSuspension] was called, and the module as updated. *)
Fixpoint Execute {Self : Type} (daq : Self -> M (I3MCTree * bool * Self))
         (fuel : nat) (self : Self) (rs : RS) : Run :=
  match fuel with
  | O => mkRun [] Running [] rs
  | S fuel' =>
      match daq self rs with
      | (inl e, rs1, l1) => mkRun [] (Raised e) l1 rs1
      | (inr (tree, suspension, self1), rs1, l1) =>
          if (suspension : bool) then mkRun [tree] Suspended l1 rs1
          else
            let r := Execute daq fuel' self1 rs1 in
            mkRun (tree :: frames r) (outcome r) (l1 ++ draws r) (service r)
      end
  end.

End Tray.

(** ** steps/step_0_cascade_simulation.py *)

Module CascadeSimulation.

Module CascadeFactory.

(** The parameters of the module, as [main] passes them. *)
Module Param.
Record t : Type := mk {
  azimuth_range : Q * Q;
  zenith_range : Q * Q;
  hadron_energy_range : Q * Q;
  fractional_energy_in_hadrons_range : Q * Q;
  time_range : Q * Q;
  x_range : Q * Q;
  y_range : Q * Q;
  z_range : Q * Q;
  flavors : list string;
  interaction_types : list string;
  num_events : Z
}.
End Param.

(** The attributes of the module after [Configure].  ([random_state] is
    never read after it is set and is left out; [random_service] is the
    state of the monad.) *)
Record t : Type := mk {
  azimuth_range : Q * Q;
  zenith_range : Q * Q;
  hadron_energy_range : Q * Q;
  fractional_energy_in_hadrons_range : Q * Q;
  time_range : Q * Q;
  x_range : Q * Q;
  y_range : Q * Q;
  z_range : Q * Q;
  flavors : list string;
  num_flavors : Z;
  interaction_types : list string;
  num_interaction_types : Z;
  num_events : Z;
  events_done : Z;
  eps : Q
}.

Definition set_events_done (self : t) (n : Z) : t :=
  mk (azimuth_range self) (zenith_range self) (hadron_energy_range self)
     (fractional_energy_in_hadrons_range self) (time_range self)
     (x_range self) (y_range self) (z_range self)
     (flavors self) (num_flavors self)
     (interaction_types self) (num_interaction_types self)
     (num_events self) n (eps self).

(** One sanity-check loop of [Configure]: the first name that is not among
    the known ones raises. *)
Fixpoint sanity_check (what : string) (known : list string)
         (names : list string) : option Exception :=
  match names with
  | [] => None
  | name :: names' =>
      if negb (str_in name known)
      then Some (ValueError (what ++ " unkown: " ++ repr name)%string)
      else sanity_check what known names'
  end.

Definition Configure (p : Param.t) : Exception + t :=
  let flavors0 := Param.flavors p in
  let num_flavors0 := Z.of_nat (List.length flavors0) in
  let interaction_types0 := Param.interaction_types p in
  let num_interaction_types0 := Z.of_nat (List.length interaction_types0) in
  (* make lowercase *)
  let flavors1 := map lower flavors0 in
  let interaction_types1 := map lower interaction_types0 in
  (* sanity checks *)
  match sanity_check "Interaction" ["cc"; "nc"]%string interaction_types1 with
  | Some e => inl e
  | None =>
      match sanity_check "Flavor" ["nue"; "numu"; "nutau"]%string flavors1 with
      | Some e => inl e
      | None =>
          inr (mk (Param.azimuth_range p) (Param.zenith_range p)
                  (Param.hadron_energy_range p)
                  (Param.fractional_energy_in_hadrons_range p)
                  (Param.time_range p)
                  (Param.x_range p) (Param.y_range p) (Param.z_range p)
                  flavors1 num_flavors0
                  interaction_types1 num_interaction_types0
                  (Param.num_events p) 0%Z (1 # 1000000))
      end
  end.

(** Lines 167-170 of [DAQ]: the shape of the daughter. *)
Definition daughter_shape (interaction_type flavor : string) : ParticleShape :=
  if (String.eqb interaction_type "cc" && String.eqb flavor "numu")%bool
  then InfiniteTrack else Cascade.

(** Lines 172-192 of [DAQ]: the types of primary and daughter.  In the last
    branch the message of the ValueError reads [self.particle_type], an
    attribute the class does not have: evaluating it raises AttributeError
    before the ValueError is built. *)
Definition assign_types (flavor interaction_type : string)
           (primary daughter : I3Particle)
  : Exception + (I3Particle * I3Particle) :=
  if String.eqb flavor "numu" then
    let primary := set_type primary NuMu in
    if String.eqb interaction_type "cc"
    then inr (primary, set_type daughter MuMinus)
    else if String.eqb interaction_type "nc"
    then inr (primary, set_type daughter NuMu)
    else inr (primary, daughter)
  else if String.eqb flavor "nutau" then
    let primary := set_type primary NuTau in
    if String.eqb interaction_type "cc"
    then inr (primary, set_type daughter TauMinus)
    else if String.eqb interaction_type "nc"
    then inr (primary, set_type daughter NuTau)
    else inr (primary, daughter)
  else if String.eqb flavor "nue" then
    let primary := set_type primary NuE in
    if String.eqb interaction_type "cc"
    then inr (primary, set_type daughter EMinus)
    else if String.eqb interaction_type "nc"
    then inr (primary, set_type daughter NuE)
    else inr (primary, daughter)
  else
    inl (AttributeError
           "'CascadeFactory' object has no attribute 'particle_type'").

(** Lines 147-209 of [DAQ]: the particles are created from the sampled
    values and filled into the tree. *)
Definition make_mctree (vertex : I3Position)
           (vertex_time zenith azimuth : Q)
           (primary_energy daughter_energy hadron_energy : Q)
           (flavor interaction_type : string) : Exception + I3MCTree :=
  let primary := I3Particle_new in
  let daughter := I3Particle_new in
  let primary := set_time primary (vertex_time * I3Units.ns) in
  let primary := set_dir primary (mkDirection zenith azimuth) in
  let primary := set_energy primary (primary_energy * I3Units.GeV) in
  let primary := set_pos primary vertex in
  let primary := set_speed primary I3Constants.c in
  let primary := set_location_type primary InIce in
  let daughter := set_location_type daughter InIce in
  let daughter := set_time daughter (time primary) in
  let daughter := set_dir daughter (dir primary) in
  let daughter := set_speed daughter (speed primary) in
  let daughter := set_pos daughter (pos primary) in
  let daughter := set_energy daughter (daughter_energy * I3Units.GeV) in
  let daughter :=
    set_shape daughter (daughter_shape interaction_type flavor) in
  match assign_types flavor interaction_type primary daughter with
  | inl e => inl e
  | inr (primary, daughter) =>
      (* add hadrons *)
      let hadrons := I3Particle_new in
      let hadrons := set_energy hadrons (hadron_energy * I3Units.GeV) in
      let hadrons := set_pos hadrons (pos daughter) in
      let hadrons := set_time hadrons (time daughter) in
      let hadrons := set_dir hadrons (dir daughter) in
      let hadrons := set_speed hadrons (speed daughter) in
      let hadrons := set_type hadrons Hadrons in
      let hadrons := set_location_type hadrons (location_type daughter) in
      let hadrons := set_shape hadrons Cascade in
      (* fill primary and daughter particles into a MCTree *)
      let mctree := add_primary primary in
      let mctree := append_child mctree daughter in
      let mctree := append_child mctree hadrons in
      inr mctree
  end.

(** The parameters as [__init__] declares them. *)
Definition default : Param.t :=
  Param.mk (0, 360) (0, 180) (10000, 10000) (0, 1) (9000, 12000)
           (-500, 500) (-500, 500) (-500, 500)
           ["NuE"; "NuMu"; "NuTau"]%string ["CC"; "NC"]%string 1%Z.

Section DAQ.

Context {RS : Type} `{RandomService RS}.

(** [I3Units.deg] *)
Variable deg : Q.

Definition DAQ (self : t) : M (I3MCTree * bool * t) :=
  (* vertex *)
  u_x <- rs_uniform (x_range self) ;;
  let vertex_x := u_x * I3Units.m in
  u_y <- rs_uniform (y_range self) ;;
  let vertex_y := u_y * I3Units.m in
  u_z <- rs_uniform (z_range self) ;;
  let vertex_z := u_z * I3Units.m in
  let vertex := mkPosition (vertex_x * I3Units.m) (vertex_y * I3Units.m)
                           (vertex_z * I3Units.m) in
  u_t <- rs_uniform (time_range self) ;;
  let vertex_time := u_t * I3Units.ns in
  (* direction *)
  u_a <- rs_uniform (azimuth_range self) ;;
  let azimuth := u_a * deg in
  u_zen <- rs_uniform (zenith_range self) ;;
  let zenith := u_zen * deg in
  (* energy *)
  u_e <- rs_uniform (hadron_energy_range self) ;;
  let hadron_energy := u_e * I3Units.GeV in
  fraction <- rs_uniform (fractional_energy_in_hadrons_range self) ;;
  primary_energy <- py_div hadron_energy (eps self + fraction) ;;
  let daughter_energy := primary_energy - hadron_energy in
  (* flavor and interaction *)
  i_flavor <- rs_integer (num_flavors self) ;;
  flavor <- py_getitem (flavors self) i_flavor ;;
  i_interaction <- rs_integer (num_interaction_types self) ;;
  interaction_type <- py_getitem (interaction_types self) i_interaction ;;
  (* create particle, add hadrons, fill the MCTree *)
  match make_mctree vertex vertex_time zenith azimuth primary_energy
                    daughter_energy hadron_energy flavor interaction_type
  with
  | inl e => raise e
  | inr mctree =>
      (* PushFrame, then count *)
      let self := set_events_done self (events_done self + 1)%Z in
      ret (mctree, (num_events self <=? events_done self)%Z, self)
  end.

End DAQ.

End CascadeFactory.

Section Main.

Context {RS : Type} `{RandomService RS}.
Variable deg : Q.

(** [main]: the module is configured with the values of the configuration
    file ([num_events] is its [n_events_per_run]) and the tray runs.  The
    muon propagation and the writers come after the module in the tray and
    do not feed back into it. *)
Definition main (cfg : CascadeFactory.Param.t) (fuel : nat) (rs : RS) : Run :=
  match CascadeFactory.Configure cfg with
  | inl e => mkRun [] (Raised e) [] rs
  | inr self => Execute (CascadeFactory.DAQ deg) fuel self rs
  end.

End Main.

End CascadeSimulation.

(** ** steps/step_0_muon_resimulation.py *)

Module MuonResimulation.

Section CreateMuon.

Context {RS : Type} `{RandomService RS}.

(** [I3Units.deg] *)
Variable deg : Q.

(** The Cartesian components of an [I3Direction], a unit vector that IceTray
    computes from the two angles.  It is a parameter of the model: sine and
    cosine have no rational values in general. *)
Variable dir_xyz : I3Direction -> I3Position.

(** [a * direction]: the position [a] along the direction. *)
Definition scale_dir (a : Q) (d : I3Direction) : I3Position :=
  mkPosition (a * px (dir_xyz d)) (a * py (dir_xyz d)) (a * pz (dir_xyz d)).

(** [p - q] on positions. *)
Definition sub_pos (p q : I3Position) : I3Position :=
  mkPosition (px p - px q) (py p - py q) (pz p - pz q).

Definition create_muon
           (azimuth_range zenith_range energy_range anchor_time_range
            anchor_x_range anchor_y_range anchor_z_range : Q * Q)
           (length_to_go_back : Q) : M I3Particle :=
  (* sample direction and energy *)
  u_a <- rs_uniform azimuth_range ;;
  let azimuth := u_a * deg in
  u_zen <- rs_uniform zenith_range ;;
  let zenith := u_zen * deg in
  u_e <- rs_uniform energy_range ;;
  let energy := u_e * I3Units.GeV in
  (* create particle *)
  let muon := I3Particle_new in
  let muon := set_speed muon I3Constants.c in
  let muon := set_location_type muon InIce in
  let muon := set_type muon MuMinus in
  let muon := set_dir muon (mkDirection zenith azimuth) in
  let muon := set_energy muon (energy * I3Units.GeV) in
  (* get anchor point and time in detector *)
  anchor_x <- rs_uniform anchor_x_range ;;
  anchor_y <- rs_uniform anchor_y_range ;;
  anchor_z <- rs_uniform anchor_z_range ;;
  let anchor := mkPosition (anchor_x * I3Units.m) (anchor_y * I3Units.m)
                           (anchor_z * I3Units.m) in
  u_t <- rs_uniform anchor_time_range ;;
  let anchor_time := u_t * I3Units.ns in
  (* calculate vertex *)
  let vertex :=
    sub_pos anchor (scale_dir (length_to_go_back * I3Units.m) (dir muon)) in
  travel_time <- py_div (length_to_go_back * I3Units.m) (speed muon) ;;
  let vertex_time := anchor_time - travel_time * I3Units.ns in
  let muon := set_pos muon vertex in
  let muon := set_time muon (vertex_time * I3Units.ns) in
  ret muon.

End CreateMuon.

Module ParticleMultiplier.

Record t : Type := mk {
  num_events : Z;
  primary : I3Particle;
  events_done : Z
}.

Definition Configure (num_events : Z) (primary : I3Particle) : t :=
  mk num_events primary 0%Z.

(** [add_primary] stores the particle in the new tree by value: what the tray
    does to the tree afterwards leaves [self.primary] as it is. *)
Definition DAQ {RS : Type} (self : t) : @M RS (I3MCTree * bool * t) :=
  (* fill primary into an MCTree *)
  let mctree := add_primary (primary self) in
  (* PushFrame, then count *)
  let self := mk (num_events self) (primary self) (events_done self + 1)%Z in
  ret (mctree, (num_events self <=? events_done self)%Z, self).

End ParticleMultiplier.

(** The keys of the configuration file that [main] reads for the generator. *)
Module Cfg.
Record t : Type := mk {
  azimuth_min : Q;
  azimuth_max : Q;
  zenith_min : Q;
  zenith_max : Q;
  e_min : Q;
  e_max : Q;
  anchor_time_range : Q * Q;
  anchor_x_range : Q * Q;
  anchor_y_range : Q * Q;
  anchor_z_range : Q * Q;
  length_to_go_back : Q;
  n_events_per_run : Z
}.
End Cfg.

Section Main.

Context {RS : Type} `{RandomService RS}.
Variable deg : Q.
Variable dir_xyz : I3Direction -> I3Position.

(** The muon that [main] creates, before the tray is built. *)
Definition main_muon (cfg : Cfg.t) : M I3Particle :=
  create_muon deg dir_xyz
    (Cfg.azimuth_min cfg, Cfg.azimuth_max cfg)
    (Cfg.zenith_min cfg, Cfg.zenith_max cfg)
    (Cfg.e_min cfg, Cfg.e_max cfg)
    (Cfg.anchor_time_range cfg)
    (Cfg.anchor_x_range cfg) (Cfg.anchor_y_range cfg)
    (Cfg.anchor_z_range cfg)
    (Cfg.length_to_go_back cfg).

(** [main]: one muon is created, then the tray runs with the
    ParticleMultiplier holding that muon. *)
Definition main (cfg : Cfg.t) (fuel : nat) (rs : RS) : Run :=
  match main_muon cfg rs with
  | (inl e, rs1, l1) => mkRun [] (Raised e) l1 rs1
  | (inr muon, rs1, l1) =>
      let self := ParticleMultiplier.Configure (Cfg.n_events_per_run cfg) muon in
      let r := Execute ParticleMultiplier.DAQ fuel self rs1 in
      mkRun (frames r) (outcome r) (l1 ++ draws r) (service r)
  end.

End Main.

End MuonResimulation.

(** ** A random service to run the model on *)

(** The services of a run are IceTray's, made by
    [utils.create_random_services].  To evaluate the definitions on concrete
    inputs the file uses a linear congruential generator: [uniform lo hi]
    is [lo + (hi - lo) * u] for the next [u] of [[0, 1)], in lowest terms,
    [integer n] the next state modulo [n]. *)
Module LCG.

Inductive t : Type := Seeded (state : Z).

Definition modulus : Z := 2147483648.

Definition next (s : t) : Z :=
  match s with
  | Seeded state => ((1103515245 * state + 12345) mod modulus)%Z
  end.

#[export] Instance random_service : RandomService t := {|
  uniform lo hi s :=
    let state := next s in
    (Qred (lo + (hi - lo) * (state # 2147483648)), Seeded state);
  integer n s :=
    let state := next s in
    ((if 0 <? n then state mod n else 0)%Z, Seeded state)
|}.

End LCG.
Export LCG.

(** Any random service, with a count of the draws made next to it. *)
#[export] Instance counted {RS : Type} `{RandomService RS}
  : RandomService (RS * nat) := {|
  uniform lo hi s :=
    match uniform lo hi (fst s) with
    | (v, rs1) => (v, (rs1, S (snd s)))
    end;
  integer n s :=
    match integer n (fst s) with
    | (v, rs1) => (v, (rs1, S (snd s)))
    end
|}.

(** A service and its counted copy go together. *)
Definition same_service {RS : Type} (s1 : RS) (s2 : RS * nat) : Prop :=
  s1 = fst s2.

(** The relation between two random services that answer alike: related
    services give the same value to the same request and stay related. *)
Definition answer_alike {RS1 RS2 : Type} `{RandomService RS1} `{RandomService RS2}
           (R : RS1 -> RS2 -> Prop) : Prop :=
  (forall lo hi s1 s2, R s1 s2 ->
     fst (uniform lo hi s1) = fst (uniform lo hi s2) /\
     R (snd (uniform lo hi s1)) (snd (uniform lo hi s2))) /\
  (forall n s1 s2, R s1 s2 ->
     fst (integer n s1) = fst (integer n s2) /\
     R (snd (integer n s1)) (snd (integer n s2))).

(** Two computations agree: from related services they return the same
    result and the same draws, and leave related services. *)
Definition agree {RS1 RS2 : Type} (R : RS1 -> RS2 -> Prop) {A : Type}
           (c1 : @M RS1 A) (c2 : @M RS2 A) : Prop :=
  forall s1 s2, R s1 s2 ->
    fst (fst (c1 s1)) = fst (fst (c2 s2)) /\
    snd (c1 s1) = snd (c2 s2) /\
    R (snd (fst (c1 s1))) (snd (fst (c2 s2))).

(** ** The vocabulary of the specification *)

(** What a draw asked for: a range, or a number of categories. *)
Definition request (d : Draw) : (Q * Q) + Z :=
  match d with
  | Uniform range _ => inl range
  | Integer n _ => inr n
  end.

(** The order of the draws of one cascade event, in the specification's
    words: vertex x, vertex y, vertex z, vertex time, azimuth, zenith, hadron
    energy, hadronic fraction, flavor index, interaction-type index. *)
Definition draw_order (self : CascadeSimulation.CascadeFactory.t)
  : list ((Q * Q) + Z) :=
  [ inl (CascadeSimulation.CascadeFactory.x_range self);
    inl (CascadeSimulation.CascadeFactory.y_range self);
    inl (CascadeSimulation.CascadeFactory.z_range self);
    inl (CascadeSimulation.CascadeFactory.time_range self);
    inl (CascadeSimulation.CascadeFactory.azimuth_range self);
    inl (CascadeSimulation.CascadeFactory.zenith_range self);
    inl (CascadeSimulation.CascadeFactory.hadron_energy_range self);
    inl (CascadeSimulation.CascadeFactory.fractional_energy_in_hadrons_range self);
    inr (CascadeSimulation.CascadeFactory.num_flavors self);
    inr (CascadeSimulation.CascadeFactory.num_interaction_types self) ].

(** The flavor and the interaction type that an event selected, read off its
    draws: the ninth and the tenth index the configured lists. *)
Definition selected (self : CascadeSimulation.CascadeFactory.t)
           (log : list Draw) : option (string * string) :=
  match nth_error log 8, nth_error log 9 with
  | Some (Integer _ i), Some (Integer _ j) =>
      match getitem (CascadeSimulation.CascadeFactory.flavors self) i,
            getitem (CascadeSimulation.CascadeFactory.interaction_types self) j
      with
      | Some flavor, Some interaction_type => Some (flavor, interaction_type)
      | _, _ => None
      end
  | _, _ => None
  end.

(** The decision table of the specification, over closed enumerations. *)
Inductive Flavor : Type :=
| electron_neutrino | muon_neutrino | tau_neutrino.

Inductive InteractionType : Type :=
| charged_current | neutral_current.

Definition flavor_name (f : Flavor) : string :=
  match f with
  | electron_neutrino => "nue"
  | muon_neutrino => "numu"
  | tau_neutrino => "nutau"
  end.

Definition interaction_name (i : InteractionType) : string :=
  match i with
  | charged_current => "cc"
  | neutral_current => "nc"
  end.

Definition neutrino (f : Flavor) : ParticleType :=
  match f with
  | electron_neutrino => NuE
  | muon_neutrino => NuMu
  | tau_neutrino => NuTau
  end.

Definition charged_lepton (f : Flavor) : ParticleType :=
  match f with
  | electron_neutrino => EMinus
  | muon_neutrino => MuMinus
  | tau_neutrino => TauMinus
  end.

(** [resolve flavor interaction_type]: the kind of the primary, the kind of
    the daughter and the shape of the daughter. *)
Definition resolve (f : Flavor) (i : InteractionType)
  : ParticleType * ParticleType * ParticleShape :=
  let primary_kind := neutrino f in
  let daughter_kind :=
    match i with
    | charged_current => charged_lepton f
    | neutral_current => primary_kind
    end in
  let daughter_shape :=
    match f, i with
    | muon_neutrino, charged_current => InfiniteTrack
    | _, _ => Cascade
    end in
  (primary_kind, daughter_kind, daughter_shape).

(** The names that [Configure] accepts, after lowercasing. *)
Definition known_flavor (name : string) : Prop :=
  str_in (lower name) ["nue"; "numu"; "nutau"]%string = true.

Definition known_interaction (name : string) : Prop :=
  str_in (lower name) ["cc"; "nc"]%string = true.


(** Squared length of a vector, and equality of positions up to [==]. *)
Definition norm2 (p : I3Position) : Q :=
  px p * px p + py p * py p + pz p * pz p.

Definition pos_eq (p q : I3Position) : Prop :=
  px p == px q /\ py p == py q /\ pz p == pz q.

(** [k] calls of DAQ one after the other, whatever the module requested in
    between: what each call pushed and whether it requested suspension.  The
    calls end at the first that raises. *)
Fixpoint invoke {RS Self : Type} (daq : Self -> @M RS (I3MCTree * bool * Self))
         (k : nat) (self : Self) (rs : RS)
  : list (Exception + I3MCTree * bool) :=
  match k with
  | O => []
  | S k' =>
      match daq self rs with
      | (inl e, _, _) => [inl e]
      | (inr (tree, suspension, self1), rs1, _) =>
          inr (tree, suspension) :: invoke daq k' self1 rs1
      end
  end.

(** Configurations used to evaluate the model. *)

(** The module that [Configure] makes of the default parameters. *)
Definition default_module : CascadeSimulation.CascadeFactory.t :=
  CascadeSimulation.CascadeFactory.mk
    (0, 360) (0, 180) (10000, 10000) (0, 1) (9000, 12000)
    (-500, 500) (-500, 500) (-500, 500)
    ["nue"; "numu"; "nutau"]%string 3%Z ["cc"; "nc"]%string 2%Z
    1%Z 0%Z (1 # 1000000).

Definition no_flavors : CascadeSimulation.CascadeFactory.Param.t :=
  CascadeSimulation.CascadeFactory.Param.mk
    (0, 360) (0, 180) (10000, 10000) (0, 1) (9000, 12000)
    (-500, 500) (-500, 500) (-500, 500)
    [] ["CC"; "NC"]%string 1%Z.

Definition unknown_flavor : CascadeSimulation.CascadeFactory.Param.t :=
  CascadeSimulation.CascadeFactory.Param.mk
    (0, 360) (0, 180) (10000, 10000) (0, 1) (9000, 12000)
    (-500, 500) (-500, 500) (-500, 500)
    ["NuE"; "nux"]%string ["CC"; "NC"]%string 1%Z.



(** The test of the specification for the back-projection: anchor at the
    origin, zenith 180 degrees, 2000 m back; three events. *)
Definition straight_muon : MuonResimulation.Cfg.t :=
  MuonResimulation.Cfg.mk 0 360 180 180 10000 10000 (9000, 12000)
                          (0, 0) (0, 0) (0, 0) 2000 3%Z.

(** The Cartesian vector of the direction of that test: at zenith 180
    degrees IceTray's vector is the unit vector of the z axis, whatever the
    azimuth. *)
Definition along_z (d : I3Direction) : I3Position := mkPosition 0 0 1.


(** ** The contract of the random service *)

(** A random service within its contract: [uniform lo hi] answers within
    [[lo, hi]] for [lo <= hi], and [integer n] answers within [[0, n)] for a
    positive [n]. *)
Definition well_behaved (RS : Type) `{RandomService RS} : Prop :=
  (forall lo hi s, lo <= hi ->
     lo <= fst (uniform lo hi s) /\ fst (uniform lo hi s) <= hi) /\
  (forall n s, (0 < n)%Z -> (0 <= fst (integer n s) < n)%Z).

(** A draw that the service has answered: its value is what the service
    returns to that request from some state. *)
Definition answered {RS : Type} `{RandomService RS} (d : Draw) : Prop :=
  match d with
  | Uniform range v => exists s : RS, v = fst (uniform (fst range) (snd range) s)
  | Integer n v => exists s : RS, v = fst (integer n s)
  end.

(** Every draw of a computation is an answer of the service. *)
Definition draws_answered {RS : Type} `{RandomService RS} {A : Type}
           (c : @M RS A) : Prop :=
  forall rs, Forall answered (snd (c rs)).

(** A value within a range, ends included. *)
Definition within (range : Q * Q) (v : Q) : Prop :=
  fst range <= v /\ v <= snd range.

(** A range in order. *)
Definition ordered (range : Q * Q) : Prop := fst range <= snd range.

(** A particle at the vertex of another: same position, time, direction,
    speed and location. *)
Definition same_vertex (p q : I3Particle) : Prop :=
  pos q = pos p /\ time q = time p /\ dir q = dir p /\
  speed q = speed p /\ location_type q = location_type p.



(** A module with another target of events, all else the same. *)
Definition set_num_events (self : CascadeSimulation.CascadeFactory.t) (n : Z)
  : CascadeSimulation.CascadeFactory.t :=
  CascadeSimulation.CascadeFactory.mk
    (CascadeSimulation.CascadeFactory.azimuth_range self)
    (CascadeSimulation.CascadeFactory.zenith_range self)
    (CascadeSimulation.CascadeFactory.hadron_energy_range self)
    (CascadeSimulation.CascadeFactory.fractional_energy_in_hadrons_range self)
    (CascadeSimulation.CascadeFactory.time_range self)
    (CascadeSimulation.CascadeFactory.x_range self)
    (CascadeSimulation.CascadeFactory.y_range self)
    (CascadeSimulation.CascadeFactory.z_range self)
    (CascadeSimulation.CascadeFactory.flavors self)
    (CascadeSimulation.CascadeFactory.num_flavors self)
    (CascadeSimulation.CascadeFactory.interaction_types self)
    (CascadeSimulation.CascadeFactory.num_interaction_types self)
    n
    (CascadeSimulation.CascadeFactory.events_done self)
    (CascadeSimulation.CascadeFactory.eps self).

(** The default parameters with another target of events. *)
Definition default_with_events (n : Z)
  : CascadeSimulation.CascadeFactory.Param.t :=
  CascadeSimulation.CascadeFactory.Param.mk
    (0, 360) (0, 180) (10000, 10000) (0, 1) (9000, 12000)
    (-500, 500) (-500, 500) (-500, 500)
    ["NuE"; "NuMu"; "NuTau"]%string ["CC"; "NC"]%string n.

(** ** The rest of [main]: the output file and the distance splits *)

(** [outfile.replace(' ', '0')]: every space becomes the digit zero. *)
Fixpoint replace_spaces (s : string) : string :=
  match s with
  | EmptyString => EmptyString
  | String ch s' =>
      String (if Ascii.eqb ch " " then "0"%char else ch) (replace_spaces s')
  end.

(** The name of the output file.  [format] stands for [pattern.format( **cfg)],
    the formatting of a pattern with the values of the configuration file;
    the flag chooses between the two patterns of the file. *)
Definition outfile (format : string -> string)
           (scratchfile_pattern outfile_pattern : string) (scratch : bool)
  : string :=
  let outfile :=
    if scratch then format scratchfile_pattern else format outfile_pattern in
  replace_spaces outfile.

(** A value of the configuration file that numpy makes an array of: a number
    or a list of numbers. *)
Inductive Value : Type :=
| Number (x : Q)
| Numbers (l : list Q).

(** [np.atleast_1d] *)
Definition atleast_1d (v : Value) : list Q :=
  match v with
  | Number x => [x]
  | Numbers l => l
  end.

(** [np.ones_like] *)
Definition ones_like (a : list Q) : list Q := map (fun _ => 1) a.

(** Element by element, for two arrays of one length. *)
Fixpoint multiply_each (a b : list Q) : list Q :=
  match a, b with
  | x :: a', y :: b' => x * y :: multiply_each a' b'
  | _, _ => []
  end.

(** [array * value] with numpy's broadcasting: a number or an array of one
    element goes with every element; two arrays of one length go element by
    element; other shapes do not go together (ValueError, [None] here). *)
Definition multiply (a : list Q) (v : Value) : option (list Q) :=
  match v with
  | Number t => Some (map (fun x => x * t) a)
  | Numbers [t] => Some (map (fun x => x * t) a)
  | Numbers l =>
      match a with
      | [x] => Some (map (fun y => x * y) l)
      | _ => if Nat.eqb (List.length a) (List.length l)
             then Some (multiply_each a l) else None
      end
  end.

(** Insertion of a value with its index into a list sorted by value, before
    the first value that is not smaller. *)
Fixpoint insert_sorted (x : Q * Z) (l : list (Q * Z)) : list (Q * Z) :=
  match l with
  | [] => [x]
  | y :: l' =>
      if Qle_bool (fst x) (fst y) then x :: y :: l'
      else y :: insert_sorted x l'
  end.

(** [np.argsort]: the indices that sort the array.  Equal values keep the
    order they have in the array (numpy's default sort does so for the short
    arrays of a configuration file, by insertion; for long arrays it
    promises no order among equal values). *)
Definition argsort (a : list Q) : list Z :=
  map snd (fold_right insert_sorted []
                      (combine a (map Z.of_nat (seq 0 (List.length a))))).

(** [a[order]] for an array of indices: the items at these indices, or
    IndexError ([None] here) when one of them is out of range. *)
Fixpoint take (a : list Q) (order : list Z) : option (list Q) :=
  match order with
  | [] => Some []
  | i :: order' =>
      match getitem a i, take a order' with
      | Some x, Some l => Some (x :: l)
      | _, _ => None
      end
  end.

(** What [main] can raise beside the exceptions of the generator: the
    NameError of a name that is bound nowhere. *)
Inductive ScriptException : Type :=
| Raise (e : Exception)
| NameError (name : string).

(** The names bound at the top of step_0_cascade_simulation.py: its imports,
    its class and its function.  (No builtin of Python is called
    [generate_stream_object] or [OversizeSplitterNSplits].) *)
Definition cascade_names : list string :=
  ["division"; "click"; "yaml"; "copy"; "np"; "ConvexHull"; "segments";
   "I3Tray"; "I3Units"; "icetray"; "dataclasses"; "create_random_services";
   "get_run_folder"; "CascadeFactory"; "main"]%string.

(** The names bound at the top of step_0_muon_resimulation.py. *)
Definition muon_names : list string :=
  ["division"; "click"; "yaml"; "copy"; "np"; "segments";
   "I3Tray"; "I3Units"; "icetray"; "dataclasses"; "create_random_services";
   "get_run_folder"; "create_muon"; "ParticleMultiplier"; "main"]%string.

(** The use of a global name: NameError when it is not bound. *)
Definition global_name (names : list string) (name : string)
  : ScriptException + unit :=
  if str_in name names then inr tt else inl (NameError name).

(** Lines 286-295 of the block "Distance Splits" of [main] (211-220 in the
    muon script): the three arrays are made and reordered by increasing
    distance. *)
Definition reorder_splits
           (cfg_distance_splits cfg_threshold_doms cfg_oversize_factors : Value)
  : Exception + (list Q * list Q * list Q) :=
  let distance_splits := atleast_1d cfg_distance_splits in
  let dom_limits := atleast_1d cfg_threshold_doms in
  match
    (if Nat.eqb (List.length dom_limits) 1
     then multiply (ones_like distance_splits) cfg_threshold_doms
     else Some dom_limits)
  with
  | None => inl (ValueError "operands could not be broadcast together")
  | Some dom_limits =>
      let oversize_factors := atleast_1d cfg_oversize_factors in
      let order := argsort distance_splits in
      match take distance_splits order with
      | None => inl IndexError
      | Some distance_splits =>
          match take dom_limits order with
          | None => inl IndexError
          | Some dom_limits =>
              match take oversize_factors order with
              | None => inl IndexError
              | Some oversize_factors =>
                  inr (distance_splits, dom_limits, oversize_factors)
              end
          end
      end
  end.

(** The block "Distance Splits" of [main], up to its call of
    [generate_stream_object]: the three arrays, reordered, are what the call
    is given. *)
Definition distance_splits_block (names : list string)
           (cfg_distance_splits cfg_threshold_doms cfg_oversize_factors : Value)
  : ScriptException + (list Q * list Q * list Q) :=
  match reorder_splits cfg_distance_splits cfg_threshold_doms
                       cfg_oversize_factors with
  | inl e => inl (Raise e)
  | inr arrays =>
      match global_name names "generate_stream_object" with
      | inl e => inl e
      | inr _ => inr arrays
      end
  end.

(** The three values of the configuration file for the distance splits;
    [None] for a [distance_splits] that is None. *)
Definition Splits : Type := option (Value * Value * Value).

(** How a script ended: it raised while the tray was set up, with the draws
    made until then, or the tray ran. *)
Inductive ScriptRun {RS : Type} : Type :=
| SetupFailed (e : ScriptException) (made : list Draw) (rs : RS)
| Ran (run : @Run RS).

(** The streams of [main]: with distance splits the block above, then the
    module [OversizeSplitterNSplits]; a plain writer without. *)
Definition add_streams (names : list string) (splits : Splits)
  : ScriptException + unit :=
  match splits with
  | Some (distance_splits, threshold_doms, oversize_factors) =>
      match distance_splits_block names distance_splits threshold_doms
                                  oversize_factors with
      | inl e => inl e
      | inr _ => global_name names "OversizeSplitterNSplits"
      end
  | None => inr tt
  end.

(** [main] of step_0_cascade_simulation.py with its streams: the tray is
    built, the streams are added, then the tray runs. *)
Definition cascade_script {RS : Type} `{RandomService RS} (deg : Q)
           (cfg : CascadeSimulation.CascadeFactory.Param.t) (splits : Splits)
           (fuel : nat) (rs : RS) : ScriptRun :=
  match add_streams cascade_names splits with
  | inl e => SetupFailed e [] rs
  | inr _ => Ran (CascadeSimulation.main deg cfg fuel rs)
  end.

(** [main] of step_0_muon_resimulation.py with its streams: the muon is
    created, the tray is built, the streams are added, then the tray runs. *)
Definition muon_script {RS : Type} `{RandomService RS} (deg : Q)
           (dir_xyz : I3Direction -> I3Position)
           (cfg : MuonResimulation.Cfg.t) (splits : Splits)
           (fuel : nat) (rs : RS) : ScriptRun :=
  match MuonResimulation.main_muon deg dir_xyz cfg rs with
  | (inl e, rs1, made) => SetupFailed (Raise e) made rs1
  | (inr muon, rs1, made) =>
      match add_streams muon_names splits with
      | inl e => SetupFailed e made rs1
      | inr _ => Ran (MuonResimulation.main deg dir_xyz cfg fuel rs)
      end
  end.

(** Distance splits used to evaluate the model. *)
Definition three_splits : Splits :=
  Some (Numbers [300; 100; 200], Number 5, Numbers [3; 1; 2]).

(** * Properties *)

Import CascadeSimulation MuonResimulation.

(** ** Two random services that answer alike *)

Section Alike.

Context {RS1 RS2 : Type} `{RandomService RS1} `{RandomService RS2}.
Variable R : RS1 -> RS2 -> Prop.
Hypothesis alike : answer_alike R.

Lemma agree_ret {A : Type} (a : A) : agree R (ret a) (ret a).
Proof. intros s1 s2 HR. cbn. auto. Qed.

Lemma agree_raise {A : Type} (e : Exception) : agree R (@raise RS1 A e) (raise e).
Proof. intros s1 s2 HR. cbn. auto. Qed.

Lemma agree_uniform (range : Q * Q) : agree R (rs_uniform range) (rs_uniform range).
Proof.
  intros s1 s2 HR. unfold rs_uniform.
  destruct alike as [Hu _].
  destruct (Hu (fst range) (snd range) s1 s2 HR) as [Hv Hs].
  destruct (uniform _ _ s1) as [v1 r1], (uniform _ _ s2) as [v2 r2].
  cbn in *. subst. auto.
Qed.

Lemma agree_integer (n : Z) : agree R (rs_integer n) (rs_integer n).
Proof.
  intros s1 s2 HR. unfold rs_integer.
  destruct alike as [_ Hi].
  destruct (Hi n s1 s2 HR) as [Hv Hs].
  destruct (integer _ s1) as [v1 r1], (integer _ s2) as [v2 r2].
  cbn in *. subst. auto.
Qed.

Lemma agree_bind {A B : Type} (c1 : @M RS1 A) (c2 : @M RS2 A)
      (k1 : A -> @M RS1 B) (k2 : A -> @M RS2 B) :
  agree R c1 c2 -> (forall a, agree R (k1 a) (k2 a)) ->
  agree R (bind c1 k1) (bind c2 k2).
Proof.
  intros Hc Hk s1 s2 HR. unfold bind.
  destruct (Hc s1 s2 HR) as (Hres & Hlog & Hs).
  destruct (c1 s1) as [[res1 r1] l1], (c2 s2) as [[res2 r2] l2].
  cbn in *. subst res2 l2.
  destruct res1 as [e | a]; cbn; auto.
  destruct (Hk a r1 r2 Hs) as (Hres' & Hlog' & Hs').
  destruct (k1 a r1) as [[res1' r1'] l1'], (k2 a r2) as [[res2' r2'] l2'].
  cbn in *. subst. auto.
Qed.

Lemma agree_py_div (a b : Q) : agree R (py_div a b) (py_div a b).
Proof.
  unfold py_div. destruct (Qeq_bool b 0);
    [apply agree_raise | apply agree_ret].
Qed.

Lemma agree_py_getitem {A : Type} (l : list A) (i : Z) :
  agree R (py_getitem l i) (py_getitem l i).
Proof.
  unfold py_getitem. destruct (getitem l i);
    [apply agree_ret | apply agree_raise].
Qed.

Lemma agree_DAQ (deg : Q) (self : CascadeFactory.t) :
  agree R (CascadeFactory.DAQ deg self) (CascadeFactory.DAQ deg self).
Proof.
  unfold CascadeFactory.DAQ.
  repeat first
    [ apply agree_bind; [ first [ apply agree_uniform | apply agree_integer
                                | apply agree_py_div | apply agree_py_getitem ]
                        | intros ? ] ].
  destruct (CascadeFactory.make_mctree _ _ _ _ _ _ _ _ _);
    [apply agree_raise | apply agree_ret].
Qed.


(** Runs of the tray agree when the calls of the module do. *)
Lemma Execute_agree {Self : Type}
      (daq1 : Self -> @M RS1 (I3MCTree * bool * Self))
      (daq2 : Self -> @M RS2 (I3MCTree * bool * Self)) :
  (forall self, agree R (daq1 self) (daq2 self)) ->
  forall fuel self s1 s2, R s1 s2 ->
    frames (Execute daq1 fuel self s1) = frames (Execute daq2 fuel self s2) /\
    outcome (Execute daq1 fuel self s1) = outcome (Execute daq2 fuel self s2) /\
    draws (Execute daq1 fuel self s1) = draws (Execute daq2 fuel self s2) /\
    R (service (Execute daq1 fuel self s1)) (service (Execute daq2 fuel self s2)).
Proof.
  intros Hdaq. induction fuel as [| fuel IH]; intros self s1 s2 HR.
  - cbn. auto.
  - cbn [Execute].
    destruct (Hdaq self s1 s2 HR) as (Hres & Hlog & Hs).
    destruct (daq1 self s1) as [[res1 r1] l1], (daq2 self s2) as [[res2 r2] l2].
    cbn in Hres, Hlog, Hs. subst res2 l2.
    destruct res1 as [e | [[tree suspension] self1]]; cbn; auto.
    destruct suspension; cbn; auto.
    destruct (IH self1 r1 r2 Hs) as (Hf & Ho & Hd & Hr).
    rewrite Hf, Ho, Hd. auto.
Qed.

End Alike.


(** ** Python primitives *)

Lemma str_in_In (x : string) (l : list string) :
  str_in x l = true <-> In x l.
Proof.
  induction l as [| y l IH]; cbn.
  - split; [discriminate | tauto].
  - destruct (String.eqb x y) eqn:E.
    + apply String.eqb_eq in E. subst. tauto.
    + apply String.eqb_neq in E. rewrite IH. split; [tauto |].
      intros [Hy | Hin]; [congruence | assumption].
Qed.

Lemma getitem_In {A : Type} (l : list A) (i : Z) (a : A) :
  getitem l i = Some a -> In a l.
Proof.
  unfold getitem.
  destruct (_ || _)%bool; [discriminate |].
  apply nth_error_In.
Qed.

Lemma getitem_nil {A : Type} (i : Z) : getitem (@nil A) i = None.
Proof.
  unfold getitem. cbn [List.length Z.of_nat].
  destruct (i <? 0)%Z eqn:E.
  - rewrite Z.add_0_r, E. reflexivity.
  - replace (0 <=? i)%Z with true by (symmetry; apply Z.leb_le; apply Z.ltb_ge in E; lia).
    rewrite orb_true_r. reflexivity.
Qed.

(** ** Configure *)

Lemma sanity_check_None (what : string) (known names : list string) :
  CascadeFactory.sanity_check what known names = None <->
  Forall (fun name => str_in name known = true) names.
Proof.
  induction names as [| name names IH]; cbn.
  - split; auto.
  - destruct (str_in name known) eqn:E; cbn.
    + rewrite IH. split; [auto | intros HF; inversion HF; assumption].
    + split; [discriminate |].
      intros HF. inversion HF. congruence.
Qed.

Lemma sanity_check_Some (what : string) (known names : list string) (e : Exception) :
  CascadeFactory.sanity_check what known names = Some e ->
  exists msg, e = ValueError msg.
Proof.
  induction names as [| name names IH]; cbn; [discriminate |].
  destruct (negb (str_in name known)); [| exact IH].
  intros E. inversion E. eauto.
Qed.

Lemma Forall_map_lower (known : list string) (names : list string) :
  Forall (fun name => str_in name known = true) (map lower names) <->
  Forall (fun name => str_in (lower name) known = true) names.
Proof. rewrite Forall_map. reflexivity. Qed.

(** [Configure] returns a module exactly when every name is known, and then
    the module is the parameters with the names in lower case. *)
Lemma Configure_inr (p : CascadeFactory.Param.t) (self : CascadeFactory.t) :
  CascadeFactory.Configure p = inr self ->
  Forall known_flavor (CascadeFactory.Param.flavors p) /\
  Forall known_interaction (CascadeFactory.Param.interaction_types p) /\
  self = CascadeFactory.mk
           (CascadeFactory.Param.azimuth_range p)
           (CascadeFactory.Param.zenith_range p)
           (CascadeFactory.Param.hadron_energy_range p)
           (CascadeFactory.Param.fractional_energy_in_hadrons_range p)
           (CascadeFactory.Param.time_range p)
           (CascadeFactory.Param.x_range p)
           (CascadeFactory.Param.y_range p)
           (CascadeFactory.Param.z_range p)
           (map lower (CascadeFactory.Param.flavors p))
           (Z.of_nat (List.length (CascadeFactory.Param.flavors p)))
           (map lower (CascadeFactory.Param.interaction_types p))
           (Z.of_nat (List.length (CascadeFactory.Param.interaction_types p)))
           (CascadeFactory.Param.num_events p) 0%Z (1 # 1000000).
Proof.
  unfold CascadeFactory.Configure. cbv zeta.
  destruct (CascadeFactory.sanity_check "Interaction" _ _) eqn:Ei; [discriminate |].
  destruct (CascadeFactory.sanity_check "Flavor" _ _) eqn:Ef; [discriminate |].
  apply sanity_check_None, Forall_map_lower in Ei, Ef.
  intros E. inversion E. auto.
Qed.

Lemma Configure_known (p : CascadeFactory.Param.t) :
  Forall known_flavor (CascadeFactory.Param.flavors p) ->
  Forall known_interaction (CascadeFactory.Param.interaction_types p) ->
  exists self, CascadeFactory.Configure p = inr self.
Proof.
  intros Hf Hi. unfold CascadeFactory.Configure. cbv zeta.
  apply Forall_map_lower in Hf, Hi.
  rewrite (proj2 (sanity_check_None "Interaction" _ _) Hi).
  rewrite (proj2 (sanity_check_None "Flavor" _ _) Hf). eauto.
Qed.

Lemma Configure_inl (p : CascadeFactory.Param.t) (e : Exception) :
  CascadeFactory.Configure p = inl e -> exists msg, e = ValueError msg.
Proof.
  unfold CascadeFactory.Configure. cbv zeta.
  destruct (CascadeFactory.sanity_check "Interaction" _ _) eqn:Ei.
  - intros E. inversion E. subst. eapply sanity_check_Some; eauto.
  - destruct (CascadeFactory.sanity_check "Flavor" _ _) eqn:Ef; [| discriminate].
    intros E. inversion E. subst. eapply sanity_check_Some; eauto.
Qed.

Lemma Configure_unknown (p : CascadeFactory.Param.t) :
  ~ Forall known_flavor (CascadeFactory.Param.flavors p) \/
  ~ Forall known_interaction (CascadeFactory.Param.interaction_types p) ->
  exists msg, CascadeFactory.Configure p = inl (ValueError msg).
Proof.
  intros Hbad.
  destruct (CascadeFactory.Configure p) as [e | self] eqn:E.
  - destruct (Configure_inl _ _ E) as [msg ->]. eauto.
  - apply Configure_inr in E. tauto.
Qed.

(** After [Configure] the names of the module are the known ones. *)
Lemma Configure_names (p : CascadeFactory.Param.t) (self : CascadeFactory.t) :
  CascadeFactory.Configure p = inr self ->
  (forall flavor, In flavor (CascadeFactory.flavors self) ->
     exists f, flavor = flavor_name f) /\
  (forall interaction_type,
     In interaction_type (CascadeFactory.interaction_types self) ->
     exists i, interaction_type = interaction_name i).
Proof.
  intros E. apply Configure_inr in E. destruct E as (Hf & Hi & ->).
  cbn [CascadeFactory.flavors CascadeFactory.interaction_types].
  split.
  - intros flavor Hin. apply in_map_iff in Hin. destruct Hin as (name & <- & Hin).
    rewrite Forall_forall in Hf. specialize (Hf name Hin).
    unfold known_flavor in Hf. apply str_in_In in Hf. cbn in Hf.
    destruct Hf as [<- | [<- | [<- | []]]];
      [exists electron_neutrino | exists muon_neutrino | exists tau_neutrino];
      reflexivity.
  - intros it Hin. apply in_map_iff in Hin. destruct Hin as (name & <- & Hin).
    rewrite Forall_forall in Hi. specialize (Hi name Hin).
    unfold known_interaction in Hi. apply str_in_In in Hi. cbn in Hi.
    destruct Hi as [<- | [<- | []]];
      [exists charged_current | exists neutral_current]; reflexivity.
Qed.

(** ** The particles of an event *)

(** For the six pairs of known names the tree is built, and its kinds and
    shape are those of the decision table. *)
Lemma make_mctree_resolve (f : Flavor) (i : InteractionType)
      (vertex : I3Position) (vertex_time zenith azimuth : Q)
      (primary_energy daughter_energy hadron_energy : Q) :
  exists p d h,
    CascadeFactory.make_mctree vertex vertex_time zenith azimuth
      primary_energy daughter_energy hadron_energy
      (flavor_name f) (interaction_name i) = inr (mkTree p [d; h]) /\
    (type p, type d, shape d) = resolve f i.
Proof.
  destruct f, i; cbn; do 3 eexists; split; reflexivity.
Qed.

(** Whatever the names, a tree that is built has the sampled kinematics. *)
Lemma make_mctree_fields (vertex : I3Position) (vertex_time zenith azimuth : Q)
      (primary_energy daughter_energy hadron_energy : Q)
      (flavor interaction_type : string) (tree : I3MCTree) :
  CascadeFactory.make_mctree vertex vertex_time zenith azimuth
    primary_energy daughter_energy hadron_energy flavor interaction_type
  = inr tree ->
  exists d h,
    children tree = [d; h] /\
    energy (primary tree) = primary_energy * I3Units.GeV /\
    energy d = daughter_energy * I3Units.GeV /\
    energy h = hadron_energy * I3Units.GeV /\
    pos (primary tree) = vertex /\ pos d = vertex /\ pos h = vertex /\
    time (primary tree) = vertex_time * I3Units.ns /\
    time d = vertex_time * I3Units.ns /\ time h = vertex_time * I3Units.ns /\
    dir (primary tree) = mkDirection zenith azimuth /\
    dir d = mkDirection zenith azimuth /\ dir h = mkDirection zenith azimuth /\
    type h = Hadrons /\ shape h = Cascade.
Proof.
  unfold CascadeFactory.make_mctree, CascadeFactory.assign_types.
  cbv zeta.
  destruct (String.eqb flavor "numu"); [| destruct (String.eqb flavor "nutau");
    [| destruct (String.eqb flavor "nue"); [| discriminate ] ] ];
    (destruct (String.eqb interaction_type "cc");
     [| destruct (String.eqb interaction_type "nc")]);
    intros E; inversion E; subst; clear E; cbn;
    do 2 eexists; repeat split; reflexivity.
Qed.

(** The tree is not built only for a flavor that is not a known one. *)
Lemma make_mctree_inl (vertex : I3Position) (vertex_time zenith azimuth : Q)
      (primary_energy daughter_energy hadron_energy : Q)
      (flavor interaction_type : string) (e : Exception) :
  CascadeFactory.make_mctree vertex vertex_time zenith azimuth
    primary_energy daughter_energy hadron_energy flavor interaction_type
  = inl e ->
  forall f, flavor <> flavor_name f.
Proof.
  unfold CascadeFactory.make_mctree, CascadeFactory.assign_types.
  cbv zeta.
  intros E f ->.
  destruct f; cbn in E;
    (destruct (String.eqb interaction_type "cc");
     [| destruct (String.eqb interaction_type "nc")]); discriminate.
Qed.


(** ** One call of CascadeFactory.DAQ *)

(** Names the next draw of a computation that has been unfolded in [E]. *)
Ltac next_draw E :=
  match type of E with
  | context [uniform ?a ?b ?r] =>
      let v := fresh "u" in
      let r' := fresh "rs" in
      destruct (uniform a b r) as [v r']; cbv beta iota zeta in E
  | context [integer ?n ?r] =>
      let v := fresh "i" in
      let r' := fresh "rs" in
      destruct (integer n r) as [v r']; cbv beta iota zeta in E
  end.

Ltac unfold_sampling :=
  unfold CascadeFactory.DAQ, create_muon, bind, rs_uniform, rs_integer,
    py_div, py_getitem, ret, raise.

Section CascadeCall.

Context {RS : Type} `{RandomService RS}.
Variable deg : Q.

(** A call that pushes a tree made the ten draws in order, divided by a
    non-zero [eps + fraction], found both names, and built the tree from
    the values drawn. *)
Lemma DAQ_inr_inv (self : CascadeFactory.t) (rs : RS) (tree : I3MCTree)
      (suspension : bool) (self' : CascadeFactory.t) (rs' : RS)
      (log : list Draw) :
  CascadeFactory.DAQ deg self rs = (inr (tree, suspension, self'), rs', log) ->
  exists u_x u_y u_z u_t u_a u_zen u_e fraction i_flavor i_interaction
         flavor interaction_type,
    log = [Uniform (CascadeFactory.x_range self) u_x;
           Uniform (CascadeFactory.y_range self) u_y;
           Uniform (CascadeFactory.z_range self) u_z;
           Uniform (CascadeFactory.time_range self) u_t;
           Uniform (CascadeFactory.azimuth_range self) u_a;
           Uniform (CascadeFactory.zenith_range self) u_zen;
           Uniform (CascadeFactory.hadron_energy_range self) u_e;
           Uniform (CascadeFactory.fractional_energy_in_hadrons_range self)
                   fraction;
           Integer (CascadeFactory.num_flavors self) i_flavor;
           Integer (CascadeFactory.num_interaction_types self) i_interaction]
    /\ Qeq_bool (CascadeFactory.eps self + fraction) 0 = false
    /\ getitem (CascadeFactory.flavors self) i_flavor = Some flavor
    /\ getitem (CascadeFactory.interaction_types self) i_interaction
       = Some interaction_type
    /\ CascadeFactory.make_mctree
         (mkPosition (u_x * I3Units.m * I3Units.m)
                     (u_y * I3Units.m * I3Units.m)
                     (u_z * I3Units.m * I3Units.m))
         (u_t * I3Units.ns) (u_zen * deg) (u_a * deg)
         (u_e * I3Units.GeV / (CascadeFactory.eps self + fraction))
         (u_e * I3Units.GeV / (CascadeFactory.eps self + fraction)
          - u_e * I3Units.GeV)
         (u_e * I3Units.GeV) flavor interaction_type = inr tree
    /\ suspension = (CascadeFactory.num_events self
                     <=? CascadeFactory.events_done self + 1)%Z
    /\ self' = CascadeFactory.set_events_done
                 self (CascadeFactory.events_done self + 1)%Z.
Proof.
  unfold_sampling. intros E.
  do 8 next_draw E.
  destruct (Qeq_bool _ 0) eqn:Ediv; [discriminate |].
  cbv beta iota zeta in E. next_draw E.
  destruct (getitem (CascadeFactory.flavors self) _) as [flavor |] eqn:Ef;
    [| discriminate].
  cbv beta iota zeta in E. next_draw E.
  destruct (getitem (CascadeFactory.interaction_types self) _)
    as [interaction_type |] eqn:Ei; [| discriminate].
  cbv beta iota zeta in E.
  destruct (CascadeFactory.make_mctree _ _ _ _ _ _ _ _ _) as [e | t] eqn:Et;
    [discriminate |].
  cbv beta iota zeta in E. inversion E; subst; clear E.
  do 12 eexists. repeat split; eauto.
Qed.

(** A call that raises: the division failed after the eight uniform draws,
    or a name was not found, or the tree was not built for the flavor
    found. *)
Lemma DAQ_inl_inv (self : CascadeFactory.t) (rs : RS) (e : Exception)
      (rs' : RS) (log : list Draw) :
  CascadeFactory.DAQ deg self rs = (inl e, rs', log) ->
  (8 <= List.length log)%nat /\
  (e = ZeroDivisionError \/ e = IndexError \/
   exists i flavor,
     getitem (CascadeFactory.flavors self) i = Some flavor /\
     forall f, flavor <> flavor_name f).
Proof.
  unfold_sampling. intros E.
  do 8 next_draw E.
  destruct (Qeq_bool _ 0) eqn:Ediv.
  { inversion E; subst. cbn. split; [lia | auto]. }
  cbv beta iota zeta in E. next_draw E.
  destruct (getitem (CascadeFactory.flavors self) _) as [flavor |] eqn:Ef.
  2:{ inversion E; subst. cbn. split; [lia | auto]. }
  cbv beta iota zeta in E. next_draw E.
  destruct (getitem (CascadeFactory.interaction_types self) _)
    as [interaction_type |] eqn:Ei.
  2:{ inversion E; subst. cbn. split; [lia | auto]. }
  cbv beta iota zeta in E.
  destruct (CascadeFactory.make_mctree _ _ _ _ _ _ _ _ _) as [e' | t] eqn:Et;
    [| discriminate].
  inversion E; subst; clear E. cbn. split; [lia |].
  right. right. do 2 eexists. split; [exact Ef |].
  eapply make_mctree_inl; eauto.
Qed.

(** Whatever the call does, its draws are the first ones of the order. *)
Lemma DAQ_requests (self : CascadeFactory.t) (rs : RS) :
  map request (snd (CascadeFactory.DAQ deg self rs)) =
  firstn (List.length (snd (CascadeFactory.DAQ deg self rs))) (draw_order self).
Proof.
  destruct (CascadeFactory.DAQ deg self rs) as [[res rs'] log] eqn:E.
  cbn [snd]. revert E. unfold_sampling. intros E.
  do 8 next_draw E.
  destruct (Qeq_bool _ 0) eqn:Ediv.
  { inversion E; subst. reflexivity. }
  cbv beta iota zeta in E. next_draw E.
  destruct (getitem (CascadeFactory.flavors self) _) as [flavor |] eqn:Ef.
  2:{ inversion E; subst. reflexivity. }
  cbv beta iota zeta in E. next_draw E.
  destruct (getitem (CascadeFactory.interaction_types self) _)
    as [interaction_type |] eqn:Ei.
  2:{ inversion E; subst. reflexivity. }
  cbv beta iota zeta in E.
  destruct (CascadeFactory.make_mctree _ _ _ _ _ _ _ _ _) as [e' | t] eqn:Et;
    inversion E; subst; reflexivity.
Qed.

End CascadeCall.

Lemma set_events_done_twice (self : CascadeFactory.t) (a b : Z) :
  CascadeFactory.set_events_done (CascadeFactory.set_events_done self a) b =
  CascadeFactory.set_events_done self b.
Proof. reflexivity. Qed.

(** ** Runs of the tray *)

Section Counting.

Context {RS Self : Type}.
Variable daq : Self -> @M RS (I3MCTree * bool * Self).
Variables count target : Self -> Z.

(** The module counts: a call that pushes a tree adds one to the count,
    keeps the target, and requests suspension when the count has reached
    the target. *)
Hypothesis daq_counts :
  forall self rs tree suspension self' rs' log,
    daq self rs = (inr (tree, suspension, self'), rs', log) ->
    count self' = (count self + 1)%Z /\ target self' = target self /\
    suspension = (target self <=? count self + 1)%Z.

Lemma Execute_ends (fuel : nat) :
  forall self rs,
    (Z.max 1 (target self - count self) <= Z.of_nat fuel)%Z ->
    outcome (Execute daq fuel self rs) <> Running.
Proof.
  induction fuel as [| fuel IH]; intros self rs Hfuel.
  - cbn in Hfuel. lia.
  - cbn [Execute].
    destruct (daq self rs) as [[[e | [[tree suspension] self1]] rs1] l1] eqn:E;
      cbn; [discriminate |].
    destruct suspension eqn:Es; cbn; [discriminate |].
    destruct (daq_counts _ _ _ _ _ _ _ E) as (Hc & Ht & Hs).
    symmetry in Hs. apply Z.leb_gt in Hs.
    apply IH. rewrite Hc, Ht. lia.
Qed.

Lemma Execute_count (fuel : nat) :
  forall self rs,
    match outcome (Execute daq fuel self rs) with
    | Suspended =>
        Z.of_nat (List.length (frames (Execute daq fuel self rs))) = Z.max 1 (target self - count self)
    | Raised _ =>
        (Z.of_nat (List.length (frames (Execute daq fuel self rs))) < Z.max 1 (target self - count self))%Z
    | Running => True
    end.
Proof.
  induction fuel as [| fuel IH]; intros self rs.
  - cbn. exact I.
  - cbn [Execute].
    destruct (daq self rs) as [[[e | [[tree suspension] self1]] rs1] l1] eqn:E;
      cbn; [lia |].
    destruct (daq_counts _ _ _ _ _ _ _ E) as (Hc & Ht & Hs).
    destruct suspension eqn:Es; cbn.
    + symmetry in Hs. apply Z.leb_le in Hs. lia.
    + symmetry in Hs. apply Z.leb_gt in Hs.
      specialize (IH self1 rs1). rewrite Hc, Ht in IH.
      destruct (outcome (Execute daq fuel self1 rs1)); [lia | lia | exact I].
Qed.

End Counting.

Section Invariant.

Context {RS Self : Type}.
Variable daq : Self -> @M RS (I3MCTree * bool * Self).
Variable Inv : Self -> Prop.
Variable Good : I3MCTree -> Prop.
Variable Bad : Exception -> Prop.

Hypothesis daq_keeps :
  forall self rs, Inv self ->
    match fst (fst (daq self rs)) with
    | inl e => Bad e
    | inr (tree, _, self') => Good tree /\ Inv self'
    end.

Lemma Execute_invariant (fuel : nat) :
  forall self rs, Inv self ->
    Forall Good (frames (Execute daq fuel self rs)) /\
    forall e, outcome (Execute daq fuel self rs) = Raised e -> Bad e.
Proof.
  induction fuel as [| fuel IH]; intros self rs HI.
  - cbn. split; [constructor | discriminate].
  - cbn [Execute]. specialize (daq_keeps self rs HI).
    destruct (daq self rs) as [[[e | [[tree suspension] self1]] rs1] l1];
      cbn in daq_keeps |- *.
    + split; [constructor |]. intros e' E. inversion E. subst. assumption.
    + destruct daq_keeps as [Hg HI1].
      destruct suspension; cbn.
      * split; [repeat constructor; assumption | discriminate].
      * destruct (IH self1 rs1 HI1) as [HF HB].
        split; [constructor; assumption | exact HB].
Qed.

End Invariant.


(** ** Determinism and the order of the draws *)

Lemma counted_alike {RS : Type} `{RandomService RS} :
  answer_alike (@same_service RS).
Proof.
  unfold same_service. split.
  - intros lo hi s1 [s2 n] ->. cbn.
    destruct (uniform lo hi s2) as [v r]. cbn. auto.
  - intros k s1 [s2 n] ->. cbn.
    destruct (integer k s2) as [v r]. cbn. auto.
Qed.

(** C1.  Two runs of the cascade generator whose random services answer
    alike (two fresh services with the same seed) push the same sequence of
    trees, end the same way and make the same draws.  Within a run, every
    call of DAQ draws in the fixed order vertex x, vertex y, vertex z, vertex
    time, azimuth, zenith, hadron energy, hadronic fraction, flavor index,
    interaction-type index: a call that raises stops somewhere along that
    order, a call that pushes a tree has made the ten draws, and the tree is
    built from the values drawn in these positions. *)
Theorem cascade_runs_deterministic
        {RS1 RS2 : Type} `{RandomService RS1} `{RandomService RS2}
        (R : RS1 -> RS2 -> Prop) (deg : Q)
        (cfg : CascadeFactory.Param.t) (fuel : nat) (s1 : RS1) (s2 : RS2) :
  answer_alike R ->
  R s1 s2 ->
  (frames (CascadeSimulation.main deg cfg fuel s1)
   = frames (CascadeSimulation.main deg cfg fuel s2) /\
   outcome (CascadeSimulation.main deg cfg fuel s1)
   = outcome (CascadeSimulation.main deg cfg fuel s2) /\
   draws (CascadeSimulation.main deg cfg fuel s1)
   = draws (CascadeSimulation.main deg cfg fuel s2)) /\
  (forall (self : CascadeFactory.t) (rs : RS1),
      map request (snd (CascadeFactory.DAQ deg self rs)) =
      firstn (List.length (snd (CascadeFactory.DAQ deg self rs)))
             (draw_order self)) /\
  (forall (self : CascadeFactory.t) (rs : RS1) tree suspension self' rs' log,
      CascadeFactory.DAQ deg self rs = (inr (tree, suspension, self'), rs', log) ->
      map request log = draw_order self /\
      exists u_x u_y u_z u_t u_a u_zen u_e fraction i_flavor i_interaction
             flavor interaction_type,
        log = [Uniform (CascadeFactory.x_range self) u_x;
               Uniform (CascadeFactory.y_range self) u_y;
               Uniform (CascadeFactory.z_range self) u_z;
               Uniform (CascadeFactory.time_range self) u_t;
               Uniform (CascadeFactory.azimuth_range self) u_a;
               Uniform (CascadeFactory.zenith_range self) u_zen;
               Uniform (CascadeFactory.hadron_energy_range self) u_e;
               Uniform (CascadeFactory.fractional_energy_in_hadrons_range self)
                       fraction;
               Integer (CascadeFactory.num_flavors self) i_flavor;
               Integer (CascadeFactory.num_interaction_types self)
                       i_interaction]
        /\ getitem (CascadeFactory.flavors self) i_flavor = Some flavor
        /\ getitem (CascadeFactory.interaction_types self) i_interaction
           = Some interaction_type
        /\ CascadeFactory.make_mctree
             (mkPosition (u_x * I3Units.m * I3Units.m)
                         (u_y * I3Units.m * I3Units.m)
                         (u_z * I3Units.m * I3Units.m))
             (u_t * I3Units.ns) (u_zen * deg) (u_a * deg)
             (u_e * I3Units.GeV / (CascadeFactory.eps self + fraction))
             (u_e * I3Units.GeV / (CascadeFactory.eps self + fraction)
              - u_e * I3Units.GeV)
             (u_e * I3Units.GeV) flavor interaction_type = inr tree).
Proof.
  intros Halike HR. split; [| split].
  - unfold CascadeSimulation.main.
    destruct (CascadeFactory.Configure cfg) as [e | self]; [cbn; auto |].
    destruct (Execute_agree R
                (CascadeFactory.DAQ deg) (CascadeFactory.DAQ deg)
                (agree_DAQ R Halike deg) fuel self s1 s2 HR)
      as (Hf & Ho & Hd & _).
    auto.
  - intros self rs. apply DAQ_requests.
  - intros self rs tree suspension self' rs' log E.
    destruct (DAQ_inr_inv deg _ _ _ _ _ _ _ E)
      as (u_x & u_y & u_z & u_t & u_a & u_zen & u_e & fraction & i_flavor
          & i_interaction & flavor & interaction_type
          & -> & _ & Hf & Hi & Ht & _ & _).
    split; [reflexivity |].
    do 12 eexists. repeat split; eauto.
Qed.

(** The theorem at a seeded generator and its counted copy, three events. *)
Lemma cascade_runs_deterministic_witness :
  frames (CascadeSimulation.main (1 # 60) CascadeFactory.default 3 (Seeded 1337))
  = frames (CascadeSimulation.main (1 # 60) CascadeFactory.default 3
                                   (Seeded 1337, O)).
Proof.
  destruct (cascade_runs_deterministic
              same_service (1 # 60) CascadeFactory.default 3
              (Seeded 1337) (Seeded 1337, O)
              counted_alike eq_refl) as [[Hframes _] _].
  exact Hframes.
Defined.


(** ** The decision table *)

Example Configure_default :
  CascadeFactory.Configure CascadeFactory.default = inr default_module.
Proof. reflexivity. Qed.

(** The six rows of [resolve]. *)
Example resolve_table :
  resolve electron_neutrino charged_current = (NuE, EMinus, Cascade) /\
  resolve electron_neutrino neutral_current = (NuE, NuE, Cascade) /\
  resolve muon_neutrino charged_current = (NuMu, MuMinus, InfiniteTrack) /\
  resolve muon_neutrino neutral_current = (NuMu, NuMu, Cascade) /\
  resolve tau_neutrino charged_current = (NuTau, TauMinus, Cascade) /\
  resolve tau_neutrino neutral_current = (NuTau, NuTau, Cascade).
Proof. repeat split. Qed.

(** The names selected by a call that pushed a tree are those its tree was
    built for. *)
Lemma DAQ_selected {RS : Type} `{RandomService RS} (deg : Q)
      (self : CascadeFactory.t) (rs : RS) tree suspension self' rs' log
      (flavor interaction_type : string) :
  CascadeFactory.DAQ deg self rs = (inr (tree, suspension, self'), rs', log) ->
  selected self log = Some (flavor, interaction_type) ->
  exists vertex vertex_time zenith azimuth primary_energy daughter_energy
         hadron_energy,
    CascadeFactory.make_mctree vertex vertex_time zenith azimuth primary_energy
      daughter_energy hadron_energy flavor interaction_type = inr tree.
Proof.
  intros E Hsel.
  destruct (DAQ_inr_inv deg _ _ _ _ _ _ _ E)
    as (u_x & u_y & u_z & u_t & u_a & u_zen & u_e & fraction & i_flavor
        & i_interaction & flavor' & interaction_type'
        & -> & _ & Hf & Hi & Ht & _ & _).
  unfold selected in Hsel. cbn [nth_error] in Hsel.
  rewrite Hf, Hi in Hsel. inversion Hsel; subst.
  do 7 eexists. exact Ht.
Qed.

(** C2.  For each of the six pairs of a flavor (electron-, muon-,
    tau-neutrino) and an interaction type (charged-current, neutral-current),
    event construction succeeds and sets the kind of the primary to the
    neutrino of the flavor, the kind of the daughter to the charged lepton of
    the flavor for charged-current and to the kind of the primary for
    neutral-current, and the shape of the daughter to track for
    muon-neutrino charged-current only, cascade in the five other cases;
    and a tree pushed by DAQ for which that pair was selected has these kinds
    and this shape. *)
Theorem decision_table (f : Flavor) (i : InteractionType) :
  (forall vertex vertex_time zenith azimuth primary_energy daughter_energy
          hadron_energy,
      exists p d h,
        CascadeFactory.make_mctree vertex vertex_time zenith azimuth
          primary_energy daughter_energy hadron_energy
          (flavor_name f) (interaction_name i) = inr (mkTree p [d; h]) /\
        type p = neutrino f /\
        type d = match i with
                 | charged_current => charged_lepton f
                 | neutral_current => type p
                 end /\
        (shape d = InfiniteTrack <-> f = muon_neutrino /\ i = charged_current) /\
        (shape d = Cascade <-> ~ (f = muon_neutrino /\ i = charged_current)) /\
        (type p, type d, shape d) = resolve f i) /\
  (forall (RS : Type) (service : RandomService RS) (deg : Q)
          (self : CascadeFactory.t) (rs : RS) tree suspension self' rs' log,
      CascadeFactory.DAQ deg self rs = (inr (tree, suspension, self'), rs', log) ->
      selected self log = Some (flavor_name f, interaction_name i) ->
      exists d h,
        children tree = [d; h] /\
        (type (primary tree), type d, shape d) = resolve f i).
Proof.
  split.
  - intros. destruct f, i; cbn; do 3 eexists;
      repeat split; try reflexivity; try discriminate;
      try (intros [? ?]; discriminate); try tauto;
      try (intros _ [? ?]; discriminate).
  - intros RS service deg self rs tree suspension self' rs' log E Hsel.
    destruct (DAQ_selected deg _ _ _ _ _ _ _ _ _ E Hsel)
      as (vertex & vertex_time & zenith & azimuth & pe & de & he & Ht).
    destruct (make_mctree_resolve f i vertex vertex_time zenith azimuth pe de he)
      as (p & d & h & Ht' & Hres).
    rewrite Ht in Ht'. inversion Ht'; subst. cbn. eauto.
Qed.

(** The theorem at the first event of the default module: an
    electron-neutrino, neutral-current event. *)
Lemma decision_table_witness :
  exists tree d h,
    fst (fst (CascadeFactory.DAQ (1 # 60) default_module (Seeded 1337)))
    = inr (tree, true, CascadeFactory.set_events_done default_module 1%Z) /\
    children tree = [d; h] /\
    (type (primary tree), type d, shape d) = (NuE, NuE, Cascade).
Proof.
  destruct (CascadeFactory.DAQ (1 # 60) default_module (Seeded 1337))
    as [[[e | [[tree suspension] self']] rs'] log] eqn:E;
    [vm_compute in E; discriminate |].
  assert (Hlog : log = snd (CascadeFactory.DAQ (1 # 60) default_module (Seeded 1337)))
    by (rewrite E; reflexivity).
  assert (Hsel : selected default_module log
                 = Some (flavor_name electron_neutrino,
                         interaction_name neutral_current))
    by (rewrite Hlog; vm_compute; reflexivity).
  destruct (proj2 (decision_table electron_neutrino neutral_current)
                  _ _ _ _ _ _ _ _ _ _ E Hsel) as (d & h & Hc & Hr).
  exists tree, d, h. split; [| split; assumption].
  vm_compute in E. inversion E. reflexivity.
Defined.

(** ** The energies of an event *)






(** ** The muon *)

Ltac next_draw_goal :=
  match goal with
  | |- context [uniform ?a ?b ?r] =>
      let v := fresh "u" in
      let r' := fresh "rs" in
      destruct (uniform a b r) as [v r']; cbv beta iota zeta
  end.

(** [create_muon] always returns: seven draws, then the muon computed from
    the values drawn. *)
Lemma create_muon_run {RS : Type} `{RandomService RS} (deg : Q)
      (dir_xyz : I3Direction -> I3Position)
      (azimuth_range zenith_range energy_range anchor_time_range
       anchor_x_range anchor_y_range anchor_z_range : Q * Q)
      (length_to_go_back : Q) (rs : RS) :
  exists u_a u_zen u_e anchor_x anchor_y anchor_z u_t rs',
    create_muon deg dir_xyz azimuth_range zenith_range energy_range
                anchor_time_range anchor_x_range anchor_y_range anchor_z_range
                length_to_go_back rs
    = (inr {| type := MuMinus; shape := Null; location_type := InIce;
              pos := sub_pos
                       (mkPosition (anchor_x * I3Units.m) (anchor_y * I3Units.m)
                                   (anchor_z * I3Units.m))
                       (scale_dir dir_xyz (length_to_go_back * I3Units.m)
                                  (mkDirection (u_zen * deg) (u_a * deg)));
              dir := mkDirection (u_zen * deg) (u_a * deg);
              time := (u_t * I3Units.ns
                       - length_to_go_back * I3Units.m / I3Constants.c
                         * I3Units.ns) * I3Units.ns;
              energy := u_e * I3Units.GeV * I3Units.GeV;
              speed := I3Constants.c |},
       rs',
       [Uniform azimuth_range u_a; Uniform zenith_range u_zen;
        Uniform energy_range u_e; Uniform anchor_x_range anchor_x;
        Uniform anchor_y_range anchor_y; Uniform anchor_z_range anchor_z;
        Uniform anchor_time_range u_t]).
Proof.
  unfold_sampling.
  do 7 next_draw_goal.
  cbn [speed set_speed set_location_type set_type set_dir set_energy
       set_pos set_time I3Particle_new dir].
  change (Qeq_bool I3Constants.c 0) with false. cbv beta iota.
  do 8 eexists. reflexivity.
Qed.

(** C4.  For every sampled muon the vertex is the anchor minus the
    back-projection distance times the unit vector of the direction, and the
    vertex time is the anchor time minus the distance over the speed.  In
    particular, for the anchor at the origin, zenith 180 degrees and a
    distance of 2000, the vertex is 2000 away from the anchor on the axis of
    the direction, and the vertex time is the anchor time minus 2000 over the
    speed. *)
Theorem back_projection {RS : Type} `{RandomService RS} (deg : Q)
        (dir_xyz : I3Direction -> I3Position)
        (azimuth_range zenith_range energy_range anchor_time_range
         anchor_x_range anchor_y_range anchor_z_range : Q * Q)
        (length_to_go_back : Q) (rs : RS) :
  exists muon rs' u_a u_zen u_e anchor_x anchor_y anchor_z u_t,
    create_muon deg dir_xyz azimuth_range zenith_range energy_range
                anchor_time_range anchor_x_range anchor_y_range anchor_z_range
                length_to_go_back rs
    = (inr muon, rs',
       [Uniform azimuth_range u_a; Uniform zenith_range u_zen;
        Uniform energy_range u_e; Uniform anchor_x_range anchor_x;
        Uniform anchor_y_range anchor_y; Uniform anchor_z_range anchor_z;
        Uniform anchor_time_range u_t]) /\
    let anchor := mkPosition (anchor_x * I3Units.m) (anchor_y * I3Units.m)
                             (anchor_z * I3Units.m) in
    let anchor_time := u_t * I3Units.ns in
    let distance := length_to_go_back * I3Units.m in
    let unit_direction_vector := dir_xyz (dir muon) in
    dir muon = mkDirection (u_zen * deg) (u_a * deg) /\
    speed muon = I3Constants.c /\
    pos_eq (pos muon)
           (mkPosition (px anchor - distance * px unit_direction_vector)
                       (py anchor - distance * py unit_direction_vector)
                       (pz anchor - distance * pz unit_direction_vector)) /\
    time muon == anchor_time - distance / speed muon /\
    (pos_eq anchor (mkPosition 0 0 0) ->
     u_zen == 180 ->
     distance == 2000 ->
     norm2 unit_direction_vector == 1 ->
     zenith (dir muon) == 180 * deg /\
     pos_eq (sub_pos (pos muon) anchor)
            (mkPosition (- (2000) * px unit_direction_vector)
                        (- (2000) * py unit_direction_vector)
                        (- (2000) * pz unit_direction_vector)) /\
     norm2 (sub_pos (pos muon) anchor) == 2000 * 2000 /\
     time muon == anchor_time - 2000 / speed muon).
Proof.
  destruct (create_muon_run deg dir_xyz azimuth_range zenith_range energy_range
              anchor_time_range anchor_x_range anchor_y_range anchor_z_range
              length_to_go_back rs)
    as (u_a & u_zen & u_e & ax & ay & az & u_t & rs' & E).
  do 9 eexists. split; [exact E |].
  cbv zeta. unfold pos_eq, norm2.
  cbn [dir speed pos time px py pz sub_pos scale_dir zenith].
  set (u := dir_xyz (mkDirection (u_zen * deg) (u_a * deg))).
  assert (Hc : ~ I3Constants.c == 0) by (intros Hc; discriminate Hc).
  split; [reflexivity |]. split; [reflexivity |].
  split; [repeat split; reflexivity |].
  split; [unfold I3Units.ns; field; exact Hc |].
  intros (Hx & Hy & Hz) Hzen Hlen Hunit.
  cbn [px py pz] in Hx, Hy, Hz.
  split; [rewrite Hzen; reflexivity |].
  split.
  { rewrite Hlen. repeat split; ring. }
  split.
  { rewrite Hlen.
    transitivity (2000 * 2000 * (px u * px u + py u * py u + pz u * pz u));
      [ring | rewrite Hunit; ring]. }
  rewrite <- Hlen. unfold I3Units.ns. field. exact Hc.
Qed.

(** The theorem at the test of the specification: anchor at the origin,
    zenith 180 degrees, 2000 m back, with the direction along the z axis. *)
Lemma back_projection_witness :
  exists muon,
    fst (fst (main_muon (1 # 60) along_z straight_muon (Seeded 1337)))
    = inr muon /\
    pos_eq (pos muon) (mkPosition 0 0 (- (2000))) /\
    norm2 (pos muon) == 2000 * 2000.
Proof.
  destruct (back_projection (1 # 60) along_z (0, 360) (180, 180) (10000, 10000)
              (9000, 12000) (0, 0) (0, 0) (0, 0) 2000 (Seeded 1337))
    as (muon & rs' & u_a & u_zen & u_e & ax & ay & az & u_t & E & Hrest).
  cbv zeta in Hrest.
  destruct Hrest as (_ & _ & _ & _ & Hspecial).
  assert (Hdraws :
            snd (main_muon (1 # 60) along_z straight_muon (Seeded 1337))
            = [Uniform (0, 360) u_a; Uniform (180, 180) u_zen;
               Uniform (10000, 10000) u_e; Uniform (0, 0) ax;
               Uniform (0, 0) ay; Uniform (0, 0) az;
               Uniform (9000, 12000) u_t])
    by (unfold main_muon, straight_muon; cbn [MuonResimulation.Cfg.azimuth_min
          MuonResimulation.Cfg.azimuth_max MuonResimulation.Cfg.zenith_min
          MuonResimulation.Cfg.zenith_max MuonResimulation.Cfg.e_min
          MuonResimulation.Cfg.e_max MuonResimulation.Cfg.anchor_time_range
          MuonResimulation.Cfg.anchor_x_range MuonResimulation.Cfg.anchor_y_range
          MuonResimulation.Cfg.anchor_z_range
          MuonResimulation.Cfg.length_to_go_back];
        rewrite E; reflexivity).
  vm_compute in Hdraws.
  inversion Hdraws; subst; clear Hdraws.
  destruct Hspecial as (_ & Hpos & Hnorm & _).
  - unfold pos_eq; cbn [px py pz]. repeat split; vm_compute; reflexivity.
  - vm_compute; reflexivity.
  - vm_compute; reflexivity.
  - vm_compute; reflexivity.
  - exists muon. split; [| split].
    + unfold main_muon, straight_muon. cbn [MuonResimulation.Cfg.azimuth_min
          MuonResimulation.Cfg.azimuth_max MuonResimulation.Cfg.zenith_min
          MuonResimulation.Cfg.zenith_max MuonResimulation.Cfg.e_min
          MuonResimulation.Cfg.e_max MuonResimulation.Cfg.anchor_time_range
          MuonResimulation.Cfg.anchor_x_range MuonResimulation.Cfg.anchor_y_range
          MuonResimulation.Cfg.anchor_z_range
          MuonResimulation.Cfg.length_to_go_back].
      rewrite E. reflexivity.
    + destruct Hpos as (Hx & Hy & Hz). unfold pos_eq.
      cbn [px py pz sub_pos along_z] in Hx, Hy, Hz |- *.
      repeat split; lra.
    + rewrite <- Hnorm. unfold norm2. cbn [px py pz sub_pos]. ring.
Defined.


(** ** Counting the events *)

(** A run of the tray with the ParticleMultiplier: the same tree is pushed
    until the count reaches the target (once, where the target is already
    reached), nothing is drawn, and the run ends suspended. *)
Lemma Execute_ParticleMultiplier {RS : Type} (k extra : nat) :
  forall (self : ParticleMultiplier.t) (rs : RS),
    Z.max 1 (ParticleMultiplier.num_events self
             - ParticleMultiplier.events_done self) = Z.of_nat k ->
    Execute ParticleMultiplier.DAQ (k + extra) self rs
    = mkRun (repeat (add_primary (ParticleMultiplier.primary self)) k)
            Suspended [] rs.
Proof.
  induction k as [| k IH]; intros self rs Hk; [lia |].
  cbn [Nat.add Execute]. unfold ParticleMultiplier.DAQ at 1, ret.
  cbn [ParticleMultiplier.num_events ParticleMultiplier.events_done
       ParticleMultiplier.primary].
  destruct (ParticleMultiplier.num_events self
            <=? ParticleMultiplier.events_done self + 1)%Z eqn:Es.
  - apply Z.leb_le in Es.
    assert (k = O) by lia. subst k. reflexivity.
  - apply Z.leb_gt in Es.
    rewrite IH by (cbn; lia). reflexivity.
Qed.

(** [k] calls of the ParticleMultiplier, whatever it requested: every call
    pushes the tree of the primary, and requests suspension once the count
    has reached the target. *)
Lemma invoke_ParticleMultiplier {RS : Type} (k : nat) :
  forall (self : ParticleMultiplier.t) (rs : RS),
    invoke ParticleMultiplier.DAQ k self rs
    = map (fun i =>
             inr (add_primary (ParticleMultiplier.primary self),
                  (ParticleMultiplier.num_events self
                   <=? ParticleMultiplier.events_done self + Z.of_nat i + 1)%Z))
          (seq 0 k).
Proof.
  induction k as [| k IH]; intros self rs; [reflexivity |].
  cbn [invoke seq map]. unfold ParticleMultiplier.DAQ at 1, ret.
  cbn [ParticleMultiplier.num_events ParticleMultiplier.events_done
       ParticleMultiplier.primary].
  rewrite IH. cbn [ParticleMultiplier.num_events ParticleMultiplier.events_done
                   ParticleMultiplier.primary].
  rewrite Z.add_0_r. f_equal.
  rewrite <- seq_shift, map_map.
  apply map_ext. intros i. do 3 f_equal. lia.
Qed.

(** The cascade module counts its calls. *)
Lemma DAQ_counts {RS : Type} `{RandomService RS} (deg : Q)
      (self : CascadeFactory.t) (rs : RS) tree suspension self' rs' log :
  CascadeFactory.DAQ deg self rs = (inr (tree, suspension, self'), rs', log) ->
  CascadeFactory.events_done self' = (CascadeFactory.events_done self + 1)%Z /\
  CascadeFactory.num_events self' = CascadeFactory.num_events self /\
  suspension = (CascadeFactory.num_events self
                <=? CascadeFactory.events_done self + 1)%Z.
Proof.
  intros E.
  destruct (DAQ_inr_inv deg _ _ _ _ _ _ _ E)
    as (u_x & u_y & u_z & u_t & u_a & u_zen & u_e & fraction & i_flavor
        & i_interaction & flavor & interaction_type
        & _ & _ & _ & _ & _ & -> & ->).
  repeat split.
Qed.

(** C9.  In the muon pipeline the muon is sampled once, before the event
    loop: the draws of a whole run are the seven draws of [create_muon], and
    the loop leaves the random service as [create_muon] left it.  Every tree
    pushed is the tree of that one muon, so the primaries of any two of them
    are identical; for a target of at least one there are exactly as many
    trees as the target. *)
Theorem muon_replayed {RS : Type} `{RandomService RS} (deg : Q)
        (dir_xyz : I3Direction -> I3Position) (cfg : MuonResimulation.Cfg.t)
        (rs : RS) (extra : nat) :
  let k := Z.to_nat (Z.max 1 (MuonResimulation.Cfg.n_events_per_run cfg)) in
  let run := MuonResimulation.main deg dir_xyz cfg (k + extra) rs in
  exists muon rs1 log,
    main_muon deg dir_xyz cfg rs = (inr muon, rs1, log) /\
    List.length log = 7%nat /\
    run = mkRun (repeat (add_primary muon) k) Suspended log rs1 /\
    (forall i j ti tj,
        nth_error (frames run) i = Some ti ->
        nth_error (frames run) j = Some tj ->
        primary ti = primary tj /\ primary ti = muon /\ children ti = []) /\
    ((1 <= MuonResimulation.Cfg.n_events_per_run cfg)%Z ->
     List.length (frames run)
     = Z.to_nat (MuonResimulation.Cfg.n_events_per_run cfg)).
Proof.
  intros k run.
  destruct (create_muon_run deg dir_xyz
              (MuonResimulation.Cfg.azimuth_min cfg,
               MuonResimulation.Cfg.azimuth_max cfg)
              (MuonResimulation.Cfg.zenith_min cfg,
               MuonResimulation.Cfg.zenith_max cfg)
              (MuonResimulation.Cfg.e_min cfg, MuonResimulation.Cfg.e_max cfg)
              (MuonResimulation.Cfg.anchor_time_range cfg)
              (MuonResimulation.Cfg.anchor_x_range cfg)
              (MuonResimulation.Cfg.anchor_y_range cfg)
              (MuonResimulation.Cfg.anchor_z_range cfg)
              (MuonResimulation.Cfg.length_to_go_back cfg) rs)
    as (u_a & u_zen & u_e & ax & ay & az & u_t & rs1 & E).
  fold (main_muon deg dir_xyz cfg) in E.
  match type of E with
  | _ = (inr ?mu, _, ?l) =>
      assert (Hrun : run = mkRun (repeat (add_primary mu) k) Suspended l rs1)
  end.
  { unfold run, MuonResimulation.main. rewrite E. cbv zeta.
    rewrite Execute_ParticleMultiplier
      by (cbn [ParticleMultiplier.Configure ParticleMultiplier.num_events
               ParticleMultiplier.events_done]; unfold k; lia).
    cbn [frames outcome draws service ParticleMultiplier.Configure
         ParticleMultiplier.primary].
    rewrite app_nil_r. reflexivity. }
  do 3 eexists. split; [exact E |]. split; [reflexivity |].
  split; [exact Hrun |].
  rewrite Hrun. cbn [frames]. split.
  - intros i j ti tj Hi Hj.
    apply nth_error_In, repeat_spec in Hi, Hj. subst. auto.
  - intros Hn. rewrite repeat_length. unfold k. lia.
Qed.

(** The theorem at the test of the back-projection, three events. *)
Lemma muon_replayed_witness :
  exists muon,
    frames (MuonResimulation.main (1 # 60) along_z straight_muon 3 (Seeded 1337))
    = [add_primary muon; add_primary muon; add_primary muon] /\
    List.length
      (draws (MuonResimulation.main (1 # 60) along_z straight_muon 3 (Seeded 1337)))
    = 7%nat.
Proof.
  destruct (muon_replayed (1 # 60) along_z straight_muon (Seeded 1337) O)
    as (muon & rs1 & log & _ & Hlen & Hrun & _).
  cbv zeta in Hrun. change (Z.to_nat _ + 0)%nat with 3%nat in Hrun.
  exists muon. rewrite Hrun. split; [reflexivity | exact Hlen].
Defined.

(** C6, as the code has it.  For a target of at least one, every call of DAQ
    pushes exactly one tree and adds one to the count, and the call that
    requests suspension first is the one that brings the count to the target:
    a tray that stops there has pushed exactly as many trees as the target.
    The modules themselves do not refuse a further call: called again, they
    push a further tree and request suspension again. *)
Theorem event_count (N : Z) :
  (1 <= N)%Z ->
  (forall (RS : Type) (primary : I3Particle) (k : nat) (rs : RS),
      invoke ParticleMultiplier.DAQ k (ParticleMultiplier.Configure N primary) rs
      = map (fun i => inr (add_primary primary, (N <=? Z.of_nat i + 1)%Z))
            (seq 0 k)) /\
  (forall (RS : Type) (primary : I3Particle) (extra : nat) (rs : RS),
      Execute ParticleMultiplier.DAQ (Z.to_nat N + extra)
              (ParticleMultiplier.Configure N primary) rs
      = mkRun (repeat (add_primary primary) (Z.to_nat N)) Suspended [] rs) /\
  (forall (RS : Type) (service : RandomService RS) (deg : Q)
          (self : CascadeFactory.t) (rs : RS) tree suspension self' rs' log,
      CascadeFactory.num_events self = N ->
      CascadeFactory.DAQ deg self rs = (inr (tree, suspension, self'), rs', log) ->
      CascadeFactory.events_done self' = (CascadeFactory.events_done self + 1)%Z /\
      CascadeFactory.num_events self' = N /\
      suspension = (N <=? CascadeFactory.events_done self + 1)%Z) /\
  (forall (RS : Type) (service : RandomService RS) (deg : Q)
          (cfg : CascadeFactory.Param.t) (extra : nat) (rs : RS),
      CascadeFactory.Param.num_events cfg = N ->
      let run := CascadeSimulation.main deg cfg (Z.to_nat N + extra) rs in
      match outcome run with
      | Suspended => List.length (frames run) = Z.to_nat N
      | Raised _ => (List.length (frames run) < Z.to_nat N)%nat
      | Running => False
      end).
Proof.
  intros HN. split; [| split; [| split]].
  - intros RS primary k rs. rewrite invoke_ParticleMultiplier.
    apply map_ext. intros i. reflexivity.
  - intros RS primary extra rs.
    rewrite Execute_ParticleMultiplier
      by (cbn [ParticleMultiplier.Configure ParticleMultiplier.num_events
               ParticleMultiplier.events_done]; lia).
    reflexivity.
  - intros RS service deg self rs tree suspension self' rs' log <- E.
    destruct (DAQ_counts deg _ _ _ _ _ _ _ E) as (Hc & Ht & Hs). auto.
  - intros RS service deg cfg extra rs Hcfg run.
    unfold run, CascadeSimulation.main.
    destruct (CascadeFactory.Configure cfg) as [e | self] eqn:Ec.
    + cbn. lia.
    + apply Configure_inr in Ec. destruct Ec as (_ & _ & Hself).
      assert (Ht : CascadeFactory.num_events self = N) by (subst self; exact Hcfg).
      assert (Hd : CascadeFactory.events_done self = 0%Z) by (subst self; reflexivity).
      pose proof (Execute_ends (CascadeFactory.DAQ deg)
                    CascadeFactory.events_done CascadeFactory.num_events
                    (DAQ_counts deg) (Z.to_nat N + extra) self rs) as Hends.
      pose proof (Execute_count (CascadeFactory.DAQ deg)
                    CascadeFactory.events_done CascadeFactory.num_events
                    (DAQ_counts deg) (Z.to_nat N + extra) self rs) as Hcount.
      rewrite Ht, Hd in Hends, Hcount.
      destruct (outcome (Execute (CascadeFactory.DAQ deg) (Z.to_nat N + extra) self rs)).
      * lia.
      * lia.
      * apply Hends; [lia | reflexivity].
Qed.

(** The theorem at a target of three. *)
Lemma event_count_witness :
  Execute ParticleMultiplier.DAQ 3
          (ParticleMultiplier.Configure 3 I3Particle_new) (Seeded 1337)
  = mkRun (repeat (add_primary I3Particle_new) 3) Suspended [] (Seeded 1337).
Proof.
  assert (H3 : (1 <= 3)%Z) by lia.
  destruct (event_count 3 H3) as (_ & Hrun & _).
  exact (Hrun LCG.t I3Particle_new O (Seeded 1337)).
Defined.

(** C6, as stated, fails: with a target of one, the first call requests
    suspension, and a second call made after it pushes a second tree and
    raises nothing, in the ParticleMultiplier and in the CascadeFactory; and
    with a target of zero the first call pushes a tree all the same. *)
Lemma event_count_counterexample :
  invoke ParticleMultiplier.DAQ 2
         (ParticleMultiplier.Configure 1 I3Particle_new) (Seeded 1337)
  = [inr (add_primary I3Particle_new, true);
     inr (add_primary I3Particle_new, true)] /\
  (exists tree1 tree2,
     invoke (CascadeFactory.DAQ (1 # 60)) 2 default_module (Seeded 1337)
     = [inr (tree1, true); inr (tree2, true)]) /\
  invoke ParticleMultiplier.DAQ 1
         (ParticleMultiplier.Configure 0 I3Particle_new) (Seeded 1337)
  = [inr (add_primary I3Particle_new, true)].
Proof.
  split; [reflexivity |]. split; [| reflexivity].
  do 2 eexists. vm_compute. reflexivity.
Qed.


(** ** The sign of the daughter energy *)








(** ** Errors of configuration *)

Example Configure_unknown_flavor :
  CascadeFactory.Configure unknown_flavor
  = inl (ValueError "Flavor unkown: 'nux'").
Proof. reflexivity. Qed.

(** C7.  If the list of flavors holds a name that is not a known flavor
    (such as nux), or the list of interaction types a name that is not a
    known interaction type (such as xc), [Configure] raises (a ValueError,
    the configuration error of the code); the run ends there, with no tree
    pushed, no draw made and the random service untouched. *)
Theorem unknown_names_rejected (cfg : CascadeFactory.Param.t) :
  (exists name, In name (CascadeFactory.Param.flavors cfg) /\
                ~ known_flavor name) \/
  (exists name, In name (CascadeFactory.Param.interaction_types cfg) /\
                ~ known_interaction name) ->
  exists msg,
    CascadeFactory.Configure cfg = inl (ValueError msg) /\
    forall (RS : Type) (service : RandomService RS) (deg : Q) (fuel : nat)
           (rs : RS),
      CascadeSimulation.main deg cfg fuel rs
      = mkRun [] (Raised (ValueError msg)) [] rs.
Proof.
  intros Hbad.
  destruct (Configure_unknown cfg) as [msg Hmsg].
  { destruct Hbad as [(name & Hin & Hk) | (name & Hin & Hk)]; [left | right];
      intros HF; rewrite Forall_forall in HF; exact (Hk (HF name Hin)). }
  exists msg. split; [exact Hmsg |].
  intros RS service deg fuel rs.
  unfold CascadeSimulation.main. rewrite Hmsg. reflexivity.
Qed.

(** The theorem at the flavors NuE and nux. *)
Lemma unknown_names_rejected_witness :
  exists msg,
    CascadeFactory.Configure unknown_flavor = inl (ValueError msg) /\
    CascadeSimulation.main (1 # 60) unknown_flavor 3 (Seeded 1337)
    = mkRun [] (Raised (ValueError msg)) [] (Seeded 1337).
Proof.
  assert (Hin : In "nux"%string (CascadeFactory.Param.flavors unknown_flavor))
    by (cbn; auto).
  assert (Hk : ~ known_flavor "nux") by (vm_compute; discriminate).
  destruct (unknown_names_rejected unknown_flavor
              (or_introl (ex_intro _ "nux"%string (conj Hin Hk))))
    as (msg & Hc & Hrun).
  exists msg. split; [exact Hc |].
  exact (Hrun LCG.t LCG.random_service (1 # 60) 3%nat (Seeded 1337)).
Defined.

(** A module made by [Configure] raises in DAQ only by the division or by
    an index out of range, and the trees it pushes are rows of the table. *)
Lemma configured_DAQ {RS : Type} `{RandomService RS} (deg : Q)
      (cfg : CascadeFactory.Param.t) (self : CascadeFactory.t) (n : Z) (rs : RS) :
  CascadeFactory.Configure cfg = inr self ->
  match fst (fst (CascadeFactory.DAQ deg (CascadeFactory.set_events_done self n) rs)) with
  | inl e => e = ZeroDivisionError \/ e = IndexError
  | inr (tree, _, self') =>
      (exists f i d h,
          children tree = [d; h] /\
          (type (primary tree), type d, shape d) = resolve f i) /\
      exists n', self' = CascadeFactory.set_events_done self n'
  end.
Proof.
  intros Hc. destruct (Configure_names cfg self Hc) as [Hfl Hit].
  destruct (CascadeFactory.DAQ deg (CascadeFactory.set_events_done self n) rs)
    as [[[e | [[tree suspension] self']] rs'] log] eqn:E; cbn [fst].
  - destruct (DAQ_inl_inv deg _ _ _ _ _ E) as (_ & [He | [He | Hx]]); auto.
    destruct Hx as (i & flavor & Hget & Hno).
    apply getitem_In in Hget. destruct (Hfl flavor Hget) as [f Hf].
    exfalso. exact (Hno f Hf).
  - destruct (DAQ_inr_inv deg _ _ _ _ _ _ _ E)
      as (u_x & u_y & u_z & u_t & u_a & u_zen & u_e & fraction & i_flavor
          & i_interaction & flavor & interaction_type
          & _ & _ & Hgf & Hgi & Ht & _ & Hself).
    apply getitem_In in Hgf, Hgi.
    destruct (Hfl flavor Hgf) as [f ->].
    destruct (Hit interaction_type Hgi) as [i ->].
    split.
    + match type of Ht with
      | CascadeFactory.make_mctree ?v ?vt ?z ?a ?pe ?de ?he _ _ = _ =>
          destruct (make_mctree_resolve f i v vt z a pe de he)
            as (p & d & h & Ht' & Hres)
      end.
      rewrite Ht in Ht'. inversion Ht'; subst tree.
      exists f, i, d, h. split; [reflexivity | exact Hres].
    + rewrite set_events_done_twice in Hself. eauto.
Qed.

(** C8, as the code has it.  An empty list of flavors or of interaction
    types is not refused at setup: with the names that are there known,
    [Configure] returns a module.  The failure comes at first use: the first
    call of DAQ raises after the eight uniform draws of the event at least
    (IndexError when it indexes the empty list, if the division has not
    raised before), and no tree is pushed. *)
Theorem empty_list_fails_at_first_use (cfg : CascadeFactory.Param.t) :
  CascadeFactory.Param.flavors cfg = [] \/
  CascadeFactory.Param.interaction_types cfg = [] ->
  Forall known_flavor (CascadeFactory.Param.flavors cfg) ->
  Forall known_interaction (CascadeFactory.Param.interaction_types cfg) ->
  exists self,
    CascadeFactory.Configure cfg = inr self /\
    forall (RS : Type) (service : RandomService RS) (deg : Q) (fuel : nat)
           (rs : RS),
      let run := CascadeSimulation.main deg cfg (S fuel) rs in
      frames run = [] /\
      (outcome run = Raised IndexError \/ outcome run = Raised ZeroDivisionError) /\
      (8 <= List.length (draws run))%nat.
Proof.
  intros Hempty Hkf Hki.
  destruct (Configure_known cfg Hkf Hki) as [self Hc].
  exists self. split; [exact Hc |].
  intros RS service deg fuel rs run. unfold run, CascadeSimulation.main.
  rewrite Hc. cbn [Execute].
  pose proof (configured_DAQ deg cfg self (CascadeFactory.events_done self) rs Hc)
    as Hcall.
  replace (CascadeFactory.set_events_done self (CascadeFactory.events_done self))
    with self in Hcall by (destruct self; reflexivity).
  destruct (CascadeFactory.DAQ deg self rs)
    as [[[e | [[tree suspension] self']] rs'] log] eqn:E; cbn [fst] in Hcall.
  - destruct (DAQ_inl_inv deg _ _ _ _ _ E) as (Hlen & _).
    cbn. split; [reflexivity |]. split; [| exact Hlen].
    destruct Hcall as [-> | ->]; auto.
  - exfalso.
    destruct (DAQ_inr_inv deg _ _ _ _ _ _ _ E)
      as (u_x & u_y & u_z & u_t & u_a & u_zen & u_e & fraction & i_flavor
          & i_interaction & flavor & interaction_type
          & _ & _ & Hgf & Hgi & _).
    apply Configure_inr in Hc. destruct Hc as (_ & _ & Hself).
    subst self. cbn [CascadeFactory.flavors CascadeFactory.interaction_types]
      in Hgf, Hgi.
    destruct Hempty as [He | He]; rewrite He in *; cbn [map] in *;
      rewrite getitem_nil in *; discriminate.
Qed.

(** The theorem at the default parameters with no flavor. *)
Lemma empty_list_fails_at_first_use_witness :
  exists self,
    CascadeFactory.Configure no_flavors = inr self /\
    frames (CascadeSimulation.main (1 # 60) no_flavors 1 (Seeded 1337)) = [] /\
    (8 <= List.length (draws (CascadeSimulation.main (1 # 60) no_flavors 1
                                                     (Seeded 1337))))%nat.
Proof.
  assert (Hkf : Forall known_flavor (CascadeFactory.Param.flavors no_flavors))
    by constructor.
  assert (Hki : Forall known_interaction
                       (CascadeFactory.Param.interaction_types no_flavors))
    by (repeat constructor).
  destruct (empty_list_fails_at_first_use no_flavors (or_introl eq_refl) Hkf Hki)
    as (self & Hc & Hrun).
  destruct (Hrun LCG.t LCG.random_service (1 # 60) O (Seeded 1337))
    as (Hframes & _ & Hdraws).
  exists self. split; [exact Hc |]. split; [exact Hframes | exact Hdraws].
Defined.

(** C8, as stated, fails: with an empty list of flavors [Configure] returns
    a module, and the run raises in its first call of DAQ, at the ninth
    draw. *)
Lemma empty_list_counterexample :
  (exists self, CascadeFactory.Configure no_flavors = inr self) /\
  frames (CascadeSimulation.main (1 # 60) no_flavors 1 (Seeded 1337)) = [] /\
  outcome (CascadeSimulation.main (1 # 60) no_flavors 1 (Seeded 1337))
  = Raised IndexError /\
  List.length (draws (CascadeSimulation.main (1 # 60) no_flavors 1 (Seeded 1337)))
  = 9%nat.
Proof.
  split; [eexists; reflexivity |].
  repeat split; vm_compute; reflexivity.
Qed.

(** ** The branch for an unknown particle *)

(** C10.  After a [Configure] that succeeded, the last branch of the
    construction of the event, the one for a particle type that is not
    known, is never taken: every flavor and every interaction type that an
    event can select is one of the known ones, every tree pushed is one of
    the six rows of the table, and a call of DAQ raises only by the division
    or by an index out of range; so does a whole run. *)
Theorem unknown_particle_unreachable {RS : Type} `{RandomService RS} (deg : Q)
        (cfg : CascadeFactory.Param.t) (self : CascadeFactory.t) :
  CascadeFactory.Configure cfg = inr self ->
  (forall i flavor,
      getitem (CascadeFactory.flavors self) i = Some flavor ->
      exists f, flavor = flavor_name f) /\
  (forall j interaction_type,
      getitem (CascadeFactory.interaction_types self) j = Some interaction_type ->
      exists i, interaction_type = interaction_name i) /\
  (forall (n : Z) (rs : RS),
      match fst (fst (CascadeFactory.DAQ
                        deg (CascadeFactory.set_events_done self n) rs)) with
      | inl e => e = ZeroDivisionError \/ e = IndexError
      | inr (tree, _, _) =>
          exists f i d h,
            children tree = [d; h] /\
            (type (primary tree), type d, shape d) = resolve f i
      end) /\
  (forall (fuel : nat) (rs : RS),
      Forall (fun tree =>
                exists f i d h,
                  children tree = [d; h] /\
                  (type (primary tree), type d, shape d) = resolve f i)
             (frames (CascadeSimulation.main deg cfg fuel rs)) /\
      forall e,
        outcome (CascadeSimulation.main deg cfg fuel rs) = Raised e ->
        e = ZeroDivisionError \/ e = IndexError).
Proof.
  intros Hc. destruct (Configure_names cfg self Hc) as [Hfl Hit].
  split; [| split; [| split]].
  - intros i flavor Hget. apply getitem_In in Hget. auto.
  - intros j it Hget. apply getitem_In in Hget. auto.
  - intros n rs. pose proof (configured_DAQ deg cfg self n rs Hc) as Hcall.
    destruct (fst (fst (CascadeFactory.DAQ deg _ rs)))
      as [e | [[tree suspension] self']]; [exact Hcall | tauto].
  - intros fuel rs. unfold CascadeSimulation.main. rewrite Hc.
    apply (Execute_invariant (CascadeFactory.DAQ deg)
             (fun s => exists n, s = CascadeFactory.set_events_done self n)).
    + intros s rs0 [n ->]. apply (configured_DAQ deg cfg self n rs0 Hc).
    + exists (CascadeFactory.events_done self). destruct self; reflexivity.
Qed.

(** The theorem at the default parameters, three events. *)
Lemma unknown_particle_unreachable_witness :
  Forall (fun tree =>
            exists f i d h,
              children tree = [d; h] /\
              (type (primary tree), type d, shape d) = resolve f i)
         (frames (CascadeSimulation.main (1 # 60) CascadeFactory.default 3
                                         (Seeded 1337))).
Proof.
  destruct (unknown_particle_unreachable (1 # 60) CascadeFactory.default
              default_module Configure_default) as (_ & _ & _ & Hrun).
  exact (proj1 (Hrun 3%nat (Seeded 1337))).
Defined.

(** * More properties of the two scripts *)

From Stdlib Require Import Permutation Sorted.

(** ** Draws are answers of the service *)

Section Answered.

Context {RS : Type} `{RandomService RS}.

Lemma answered_ret {A : Type} (a : A) : draws_answered (ret a).
Proof. intros rs. constructor. Qed.

Lemma answered_raise {A : Type} (e : Exception) : draws_answered (@raise RS A e).
Proof. intros rs. constructor. Qed.

Lemma answered_uniform (range : Q * Q) : draws_answered (rs_uniform range).
Proof.
  intros rs. unfold rs_uniform.
  destruct (uniform (fst range) (snd range) rs) as [v rs1] eqn:E. cbn.
  constructor; [| constructor].
  exists rs. rewrite E. reflexivity.
Qed.

Lemma answered_integer (n : Z) : draws_answered (rs_integer n).
Proof.
  intros rs. unfold rs_integer.
  destruct (integer n rs) as [v rs1] eqn:E. cbn.
  constructor; [| constructor].
  exists rs. rewrite E. reflexivity.
Qed.

Lemma answered_bind {A B : Type} (c : @M RS A) (k : A -> @M RS B) :
  draws_answered c -> (forall a, draws_answered (k a)) ->
  draws_answered (bind c k).
Proof.
  intros Hc Hk rs. unfold bind. specialize (Hc rs).
  destruct (c rs) as [[[e | a] rs1] l1]; cbn in *; [exact Hc |].
  specialize (Hk a rs1).
  destruct (k a rs1) as [[r rs2] l2]. cbn in *.
  apply Forall_app. split; assumption.
Qed.

Lemma answered_py_div (a b : Q) : draws_answered (@py_div RS a b).
Proof.
  unfold py_div. destruct (Qeq_bool b 0);
    [apply answered_raise | apply answered_ret].
Qed.

Lemma answered_py_getitem {A : Type} (l : list A) (i : Z) :
  draws_answered (@py_getitem RS A l i).
Proof.
  unfold py_getitem. destruct (getitem l i);
    [apply answered_ret | apply answered_raise].
Qed.

Lemma answered_DAQ (deg : Q) (self : CascadeFactory.t) :
  draws_answered (CascadeFactory.DAQ deg self).
Proof.
  unfold CascadeFactory.DAQ.
  repeat first
    [ apply answered_bind;
      [ first [ apply answered_uniform | apply answered_integer
              | apply answered_py_div | apply answered_py_getitem ]
      | intros ? ] ].
  destruct (CascadeFactory.make_mctree _ _ _ _ _ _ _ _ _);
    [apply answered_raise | apply answered_ret].
Qed.


(** Under the contract an answered uniform draw lies in its range and an
    answered index in [[0, n)]. *)
Lemma answered_within (range : Q * Q) (v : Q) :
  well_behaved RS -> ordered range -> answered (Uniform range v) ->
  within range v.
Proof.
  intros [Hu _] Hord [s ->]. exact (Hu _ _ s Hord).
Qed.

Lemma answered_index (n v : Z) :
  well_behaved RS -> (0 < n)%Z -> answered (Integer n v) -> (0 <= v < n)%Z.
Proof.
  intros [_ Hi] Hn [s ->]. exact (Hi n s Hn).
Qed.

End Answered.

(** The generator of the model keeps the contract. *)
Lemma LCG_well_behaved : well_behaved LCG.t.
Proof.
  split.
  - intros lo hi s Hle. cbn [uniform LCG.random_service fst].
    set (x := LCG.next s).
    assert (Hx : (0 <= x < 2147483648)%Z).
    { unfold x, LCG.next. destruct s as [state].
      apply Z.mod_pos_bound. reflexivity. }
    rewrite Qred_correct.
    assert (Hu0 : 0 <= x # 2147483648)
      by (unfold Qle; cbn; lia).
    assert (Hu1 : x # 2147483648 <= 1)
      by (unfold Qle; cbn; lia).
    split; nra.
  - intros n s Hn. cbn [integer LCG.random_service fst].
    replace (0 <? n)%Z with true by (symmetry; apply Z.ltb_lt; exact Hn).
    apply Z.mod_pos_bound. exact Hn.
Qed.

(** ** Every outcome of a call of CascadeFactory.DAQ *)

(** [l[i]] has an item exactly for an index from [-len] up to [len - 1]. *)
Lemma getitem_None {A : Type} (l : list A) (i : Z) :
  getitem l i = None <->
  ~ (- Z.of_nat (List.length l) <= i < Z.of_nat (List.length l))%Z.
Proof.
  unfold getitem. cbv zeta.
  destruct (i <? 0)%Z eqn:Eneg.
  - apply Z.ltb_lt in Eneg.
    destruct (_ || _)%bool eqn:Eout.
    + apply orb_true_iff in Eout. rewrite Z.ltb_lt, Z.leb_le in Eout.
      split; [intros _; lia | reflexivity].
    + apply orb_false_iff in Eout. rewrite Z.ltb_ge, Z.leb_gt in Eout.
      split; [| lia]. intros Hnone. apply nth_error_None in Hnone. lia.
  - apply Z.ltb_ge in Eneg.
    destruct (_ || _)%bool eqn:Eout.
    + apply orb_true_iff in Eout. rewrite Z.ltb_lt, Z.leb_le in Eout.
      split; [intros _; lia | reflexivity].
    + apply orb_false_iff in Eout. rewrite Z.ltb_ge, Z.leb_gt in Eout.
      split; [| lia]. intros Hnone. apply nth_error_None in Hnone. lia.
Qed.

Section CascadeOutcomes.

Context {RS : Type} `{RandomService RS}.
Variable deg : Q.

(** The eight uniform draws are always made.  Then the call ends in one of
    four ways: the division raises; the flavor is not found; the interaction
    type is not found; both are found and the tree is built, or not. *)
Lemma DAQ_cases (self : CascadeFactory.t) (rs : RS) :
  exists u_x u_y u_z u_t u_a u_zen u_e fraction,
    let uniforms :=
      [Uniform (CascadeFactory.x_range self) u_x;
       Uniform (CascadeFactory.y_range self) u_y;
       Uniform (CascadeFactory.z_range self) u_z;
       Uniform (CascadeFactory.time_range self) u_t;
       Uniform (CascadeFactory.azimuth_range self) u_a;
       Uniform (CascadeFactory.zenith_range self) u_zen;
       Uniform (CascadeFactory.hadron_energy_range self) u_e;
       Uniform (CascadeFactory.fractional_energy_in_hadrons_range self)
               fraction] in
    let r := CascadeFactory.DAQ deg self rs in
    (Qeq_bool (CascadeFactory.eps self + fraction) 0 = true /\
     fst (fst r) = inl ZeroDivisionError /\ snd r = uniforms) \/
    (Qeq_bool (CascadeFactory.eps self + fraction) 0 = false /\
     exists i,
       (getitem (CascadeFactory.flavors self) i = None /\
        fst (fst r) = inl IndexError /\
        snd r = uniforms ++ [Integer (CascadeFactory.num_flavors self) i]) \/
       (exists flavor j,
           getitem (CascadeFactory.flavors self) i = Some flavor /\
           snd r = uniforms
                   ++ [Integer (CascadeFactory.num_flavors self) i;
                       Integer (CascadeFactory.num_interaction_types self) j] /\
           ((getitem (CascadeFactory.interaction_types self) j = None /\
             fst (fst r) = inl IndexError) \/
            (exists interaction_type,
                getitem (CascadeFactory.interaction_types self) j
                = Some interaction_type /\
                fst (fst r)
                = match
                    CascadeFactory.make_mctree
                      (mkPosition (u_x * I3Units.m * I3Units.m)
                                  (u_y * I3Units.m * I3Units.m)
                                  (u_z * I3Units.m * I3Units.m))
                      (u_t * I3Units.ns) (u_zen * deg) (u_a * deg)
                      (u_e * I3Units.GeV / (CascadeFactory.eps self + fraction))
                      (u_e * I3Units.GeV / (CascadeFactory.eps self + fraction)
                       - u_e * I3Units.GeV)
                      (u_e * I3Units.GeV) flavor interaction_type
                  with
                  | inl e => inl e
                  | inr mctree =>
                      inr (mctree,
                           (CascadeFactory.num_events self
                            <=? CascadeFactory.events_done self + 1)%Z,
                           CascadeFactory.set_events_done
                             self (CascadeFactory.events_done self + 1)%Z)
                  end)))).
Proof.
  destruct (CascadeFactory.DAQ deg self rs) as [[res rs'] log] eqn:E.
  revert E. unfold_sampling. intros E.
  do 8 next_draw E.
  exists u, u0, u1, u2, u3, u4, u5, u6. cbv zeta. cbn [fst snd].
  destruct (Qeq_bool _ 0) eqn:Ediv.
  { inversion E; subst. left. auto. }
  right. split; [reflexivity |].
  cbv beta iota zeta in E. next_draw E. exists i.
  destruct (getitem (CascadeFactory.flavors self) _) as [flavor |] eqn:Ef.
  2:{ inversion E; subst. left. auto. }
  right. cbv beta iota zeta in E. next_draw E. exists flavor, i0.
  split; [reflexivity |].
  destruct (getitem (CascadeFactory.interaction_types self) _)
    as [interaction_type |] eqn:Ei.
  2:{ inversion E; subst. split; [reflexivity |]. left. auto. }
  cbv beta iota zeta in E.
  destruct (CascadeFactory.make_mctree _ _ _ _ _ _ _ _ _) as [e' | t] eqn:Et;
    inversion E; subst; (split; [reflexivity |]); right;
    exists interaction_type; (split; [reflexivity |]);
    rewrite Et; reflexivity.
Qed.

End CascadeOutcomes.

(** After [Configure] the counts are the lengths of the lists, the count of
    events is zero and [eps] is 1e-6. *)
Lemma Configure_counts (cfg : CascadeFactory.Param.t) (self : CascadeFactory.t) :
  CascadeFactory.Configure cfg = inr self ->
  CascadeFactory.num_flavors self
  = Z.of_nat (List.length (CascadeFactory.flavors self)) /\
  CascadeFactory.num_interaction_types self
  = Z.of_nat (List.length (CascadeFactory.interaction_types self)) /\
  CascadeFactory.events_done self = 0%Z /\
  CascadeFactory.eps self = 1 # 1000000 /\
  CascadeFactory.num_events self = CascadeFactory.Param.num_events cfg /\
  CascadeFactory.fractional_energy_in_hadrons_range self
  = CascadeFactory.Param.fractional_energy_in_hadrons_range cfg /\
  List.length (CascadeFactory.flavors self)
  = List.length (CascadeFactory.Param.flavors cfg) /\
  List.length (CascadeFactory.interaction_types self)
  = List.length (CascadeFactory.Param.interaction_types cfg).
Proof.
  intros Hc. apply Configure_inr in Hc. destruct Hc as (_ & _ & ->).
  cbn. rewrite !length_map. repeat split.
Qed.

(** For a module that [Configure] made, the tree is built for every pair of
    names found in its lists. *)
Lemma configured_make_mctree (cfg : CascadeFactory.Param.t)
      (self : CascadeFactory.t) (i j : Z) (flavor interaction_type : string)
      (vertex : I3Position) (vertex_time zenith azimuth pe de he : Q) :
  CascadeFactory.Configure cfg = inr self ->
  getitem (CascadeFactory.flavors self) i = Some flavor ->
  getitem (CascadeFactory.interaction_types self) j = Some interaction_type ->
  exists tree,
    CascadeFactory.make_mctree vertex vertex_time zenith azimuth pe de he
                               flavor interaction_type = inr tree.
Proof.
  intros Hc Hf Hi. destruct (Configure_names cfg self Hc) as [Hfl Hit].
  apply getitem_In in Hf, Hi.
  destruct (Hfl _ Hf) as [f ->]. destruct (Hit _ Hi) as [it ->].
  destruct (make_mctree_resolve f it vertex vertex_time zenith azimuth pe de he)
    as (p & d & h & Ht & _).
  eauto.
Qed.

(** X1.  The exceptions of a call of DAQ, for a module that [Configure] made.
    The fraction is always drawn.  The call raises ZeroDivisionError exactly
    when the fraction drawn is [-eps]; it raises IndexError exactly when the
    division went through and the index drawn for the flavor, or the one
    drawn for the interaction type, is outside [[-n, n)] for the count [n] of
    the list; it pushes a tree exactly when neither happens. *)
Theorem DAQ_exceptions {RS : Type} `{RandomService RS} (deg : Q)
        (cfg : CascadeFactory.Param.t) (self : CascadeFactory.t) (n : Z)
        (rs : RS) :
  CascadeFactory.Configure cfg = inr self ->
  let r := CascadeFactory.DAQ deg (CascadeFactory.set_events_done self n) rs in
  let in_range (count i : Z) := (- count <= i < count)%Z in
  exists f,
    nth_error (snd r) 7
    = Some (Uniform (CascadeFactory.fractional_energy_in_hadrons_range self) f) /\
    (fst (fst r) = inl ZeroDivisionError <-> f == - (1 # 1000000)) /\
    (fst (fst r) = inl IndexError <->
     ~ f == - (1 # 1000000) /\
     exists i,
       nth_error (snd r) 8 = Some (Integer (CascadeFactory.num_flavors self) i) /\
       (~ in_range (CascadeFactory.num_flavors self) i \/
        exists j,
          nth_error (snd r) 9
          = Some (Integer (CascadeFactory.num_interaction_types self) j) /\
          ~ in_range (CascadeFactory.num_interaction_types self) j)) /\
    ((exists out, fst (fst r) = inr out) <->
     ~ f == - (1 # 1000000) /\
     exists i j,
       nth_error (snd r) 8 = Some (Integer (CascadeFactory.num_flavors self) i) /\
       nth_error (snd r) 9
       = Some (Integer (CascadeFactory.num_interaction_types self) j) /\
       in_range (CascadeFactory.num_flavors self) i /\
       in_range (CascadeFactory.num_interaction_types self) j).
Proof.
  intros Hc r in_range.
  destruct (Configure_counts cfg self Hc) as (Hnf & Hni & _ & Heps & _).
  destruct (DAQ_cases deg (CascadeFactory.set_events_done self n) rs)
    as (u_x & u_y & u_z & u_t & u_a & u_zen & u_e & f & Hcases).
  cbv zeta in Hcases. fold r in Hcases.
  cbn [CascadeFactory.set_events_done CascadeFactory.eps CascadeFactory.flavors
       CascadeFactory.interaction_types CascadeFactory.num_flavors
       CascadeFactory.num_interaction_types CascadeFactory.x_range
       CascadeFactory.y_range CascadeFactory.z_range CascadeFactory.time_range
       CascadeFactory.azimuth_range CascadeFactory.zenith_range
       CascadeFactory.hadron_energy_range
       CascadeFactory.fractional_energy_in_hadrons_range] in Hcases.
  rewrite Heps in Hcases.
  assert (Hzero : Qeq_bool ((1 # 1000000) + f) 0 = true <-> f == - (1 # 1000000)).
  { rewrite Qeq_bool_iff. split; intros Hq; lra. }
  assert (Hnonzero : Qeq_bool ((1 # 1000000) + f) 0 = false
                     <-> ~ f == - (1 # 1000000)).
  { rewrite <- Hzero. destruct (Qeq_bool _ 0); split; congruence. }
  assert (Hgf : forall i, getitem (CascadeFactory.flavors self) i = None
                          <-> ~ in_range (CascadeFactory.num_flavors self) i)
    by (intros i; rewrite Hnf; apply getitem_None).
  assert (Hgi : forall j, getitem (CascadeFactory.interaction_types self) j = None
                          <-> ~ in_range (CascadeFactory.num_interaction_types self) j)
    by (intros j; rewrite Hni; apply getitem_None).
  exists f.
  destruct Hcases as [(Hdiv & Hres & Hlog) | (Hdiv & i & Hrest)].
  { (* the division raises *)
    rewrite Hres, Hlog. cbn [nth_error].
    apply Hzero in Hdiv.
    split; [reflexivity |]. split; [tauto |]. split.
    - split; [discriminate | tauto].
    - split; [intros [out Hout]; discriminate | tauto]. }
  apply Hnonzero in Hdiv.
  destruct Hrest as [(Hf & Hres & Hlog) | (flavor & j & Hf & Hlog & Hrest)].
  { (* the flavor is not found *)
    rewrite Hres, Hlog. cbn [nth_error app].
    apply Hgf in Hf.
    split; [reflexivity |]. split; [split; [discriminate | tauto] |]. split.
    - split; [intros _ | reflexivity].
      split; [exact Hdiv |]. exists i. split; [reflexivity | tauto].
    - split; [intros [out Hout]; discriminate |].
      intros (_ & i' & j' & Hi' & Hj' & _). discriminate. }
  assert (Hfin : in_range (CascadeFactory.num_flavors self) i).
  { destruct (Z_le_dec (- CascadeFactory.num_flavors self) i);
      [destruct (Z_lt_dec i (CascadeFactory.num_flavors self)) |];
      [split; assumption | |];
      exfalso; assert (Hnone : getitem (CascadeFactory.flavors self) i = None)
        by (apply Hgf; unfold in_range; lia); congruence. }
  rewrite Hlog. cbn [nth_error app].
  destruct Hrest as [(Hi & Hres) | (interaction_type & Hi & Hres)].
  { (* the interaction type is not found *)
    rewrite Hres. apply Hgi in Hi.
    split; [reflexivity |]. split; [split; [discriminate | tauto] |]. split.
    - split; [intros _ | reflexivity].
      split; [exact Hdiv |]. exists i. split; [reflexivity |].
      right. exists j. split; [reflexivity | exact Hi].
    - split; [intros [out Hout]; discriminate |].
      intros (_ & i' & j' & Hi' & Hj' & _ & Hjin).
      inversion Hj'; subst j'. tauto. }
  (* both are found: the tree is built *)
  assert (Hjin : in_range (CascadeFactory.num_interaction_types self) j).
  { destruct (Z_le_dec (- CascadeFactory.num_interaction_types self) j);
      [destruct (Z_lt_dec j (CascadeFactory.num_interaction_types self)) |];
      [split; assumption | |];
      exfalso;
      assert (Hnone : getitem (CascadeFactory.interaction_types self) j = None)
        by (apply Hgi; unfold in_range; lia); congruence. }
  match type of Hres with
  | _ = match CascadeFactory.make_mctree ?v ?vt ?z ?a ?pe ?de ?he _ _ with _ => _ end =>
      destruct (configured_make_mctree cfg self i j flavor interaction_type
                  v vt z a pe de he Hc Hf Hi) as [tree Ht]
  end.
  rewrite Ht in Hres. rewrite Hres.
  split; [reflexivity |]. split; [split; [discriminate | tauto] |]. split.
  - split; [discriminate |].
    intros (_ & i' & Hi' & [Hout | (j' & Hj' & Hout)]).
    + inversion Hi'; subst i'. tauto.
    + inversion Hj'; subst j'. tauto.
  - split; [intros _ | intros _; eauto].
    split; [exact Hdiv |]. exists i, j. auto.
Qed.

(** The theorem at the first event of the default module. *)
Lemma DAQ_exceptions_witness :
  exists f,
    nth_error (snd (CascadeFactory.DAQ (1 # 60) default_module (Seeded 1337))) 7
    = Some (Uniform (0, 1) f) /\
    (fst (fst (CascadeFactory.DAQ (1 # 60) default_module (Seeded 1337)))
     = inl ZeroDivisionError <-> f == - (1 # 1000000)).
Proof.
  destruct (DAQ_exceptions (1 # 60) CascadeFactory.default default_module 0%Z
              (Seeded 1337) Configure_default) as (f & Hf & Hzero & _).
  exists f. split; [exact Hf | exact Hzero].
Defined.

(** ** Sampling within the configured ranges *)

(** X2.  With a random service within its contract, every quantity of a
    cascade event lies in its configured range, for each range that is in
    order: the three coordinates of the vertex, the vertex time, the zenith
    and the azimuth (the range in degrees times [deg], for a [deg] that is
    not negative) and the energy of the hadrons. *)
Theorem sampled_within_ranges {RS : Type} `{RandomService RS} (deg : Q)
        (self : CascadeFactory.t) (rs : RS) tree suspension self' rs' log :
  well_behaved RS ->
  CascadeFactory.DAQ deg self rs = (inr (tree, suspension, self'), rs', log) ->
  (ordered (CascadeFactory.x_range self) ->
   within (CascadeFactory.x_range self) (px (pos (primary tree)))) /\
  (ordered (CascadeFactory.y_range self) ->
   within (CascadeFactory.y_range self) (py (pos (primary tree)))) /\
  (ordered (CascadeFactory.z_range self) ->
   within (CascadeFactory.z_range self) (pz (pos (primary tree)))) /\
  (ordered (CascadeFactory.time_range self) ->
   within (CascadeFactory.time_range self) (time (primary tree))) /\
  (0 <= deg -> ordered (CascadeFactory.azimuth_range self) ->
   within (fst (CascadeFactory.azimuth_range self) * deg,
           snd (CascadeFactory.azimuth_range self) * deg)
          (azimuth (dir (primary tree)))) /\
  (0 <= deg -> ordered (CascadeFactory.zenith_range self) ->
   within (fst (CascadeFactory.zenith_range self) * deg,
           snd (CascadeFactory.zenith_range self) * deg)
          (zenith (dir (primary tree)))) /\
  (ordered (CascadeFactory.hadron_energy_range self) ->
   exists hadrons,
     nth_error (children tree) 1 = Some hadrons /\
     within (CascadeFactory.hadron_energy_range self) (energy hadrons)).
Proof.
  intros Hwb E.
  pose proof (answered_DAQ deg self rs) as Hans. rewrite E in Hans. cbn [snd] in Hans.
  destruct (DAQ_inr_inv deg _ _ _ _ _ _ _ E)
    as (u_x & u_y & u_z & u_t & u_a & u_zen & u_e & fraction & i_flavor
        & i_interaction & flavor & interaction_type
        & -> & _ & _ & _ & Ht & _ & _).
  apply make_mctree_fields in Ht.
  destruct Ht as (d & h & Hch & _ & _ & Hhe & Hpos & _ & _ & Htime & _ & _
                  & Hdir & _).
  rewrite Hpos, Htime, Hdir, Hch. cbn [px py pz zenith azimuth nth_error].
  repeat match goal with
         | Hf : Forall _ (_ :: _) |- _ => inversion Hf; subst; clear Hf
         end.
  unfold within, ordered. cbn [fst snd].
  unfold I3Units.m, I3Units.ns.
  repeat split;
    try match goal with
        | |- exists _, _ => idtac
        | _ =>
            intros;
            match goal with
            | Ha : answered (Uniform ?r ?v), Ho : fst ?r <= snd ?r |- _ =>
                match goal with
                | |- context [v] =>
                    destruct (answered_within r v Hwb Ho Ha) as [Hlo Hhi]; nra
                end
            end
        end.
  intros Ho. exists h. split; [reflexivity |].
  rewrite Hhe. unfold I3Units.GeV.
  match goal with
  | Ha : answered (Uniform (CascadeFactory.hadron_energy_range self) ?v) |- _ =>
      destruct (answered_within _ v Hwb Ho Ha) as [Hlo Hhi]
  end.
  cbn [fst snd]. split; lra.
Qed.

(** The theorem at the first event of the default module. *)
Lemma sampled_within_ranges_witness :
  exists tree,
    fst (fst (CascadeFactory.DAQ (1 # 60) default_module (Seeded 1337)))
    = inr (tree, true, CascadeFactory.set_events_done default_module 1%Z) /\
    within (-500, 500) (px (pos (primary tree))) /\
    within (9000, 12000) (time (primary tree)).
Proof.
  destruct (CascadeFactory.DAQ (1 # 60) default_module (Seeded 1337))
    as [[[e | [[tree suspension] self']] rs'] log] eqn:E;
    [vm_compute in E; discriminate |].
  destruct (sampled_within_ranges (1 # 60) default_module (Seeded 1337)
              tree suspension self' rs' log LCG_well_behaved E)
    as (Hx & _ & _ & Ht & _).
  exists tree. split; [| split].
  - vm_compute in E. inversion E. reflexivity.
  - apply Hx. vm_compute. discriminate.
  - apply Ht. vm_compute. discriminate.
Defined.

(** ** A run that completes *)

Section CascadeRun.

Context {RS : Type} `{RandomService RS}.
Variable deg : Q.
Variable cfg : CascadeFactory.Param.t.
Variable self : CascadeFactory.t.

Hypothesis contract : well_behaved RS.
Hypothesis configured : CascadeFactory.Configure cfg = inr self.
Hypothesis some_flavor : CascadeFactory.Param.flavors cfg <> [].
Hypothesis some_interaction : CascadeFactory.Param.interaction_types cfg <> [].
Hypothesis fraction_ordered :
  ordered (CascadeFactory.Param.fractional_energy_in_hadrons_range cfg).
Hypothesis fraction_not_negative :
  0 <= fst (CascadeFactory.Param.fractional_energy_in_hadrons_range cfg).

(** Under these conditions every call pushes a tree, after ten draws. *)
Lemma DAQ_succeeds (n : Z) (rs : RS) :
  exists tree rs' log,
    CascadeFactory.DAQ deg (CascadeFactory.set_events_done self n) rs
    = (inr (tree,
            (CascadeFactory.num_events self <=? n + 1)%Z,
            CascadeFactory.set_events_done self (n + 1)%Z), rs', log) /\
    List.length log = 10%nat.
Proof.
  destruct (Configure_counts cfg self configured)
    as (Hnf & Hni & _ & Heps & _ & Hfr & Hlf & Hli).
  pose proof (answered_DAQ deg (CascadeFactory.set_events_done self n) rs) as Hans.
  destruct (DAQ_cases deg (CascadeFactory.set_events_done self n) rs)
    as (u_x & u_y & u_z & u_t & u_a & u_zen & u_e & f' & Hcases).
  cbv zeta in Hcases.
  destruct (CascadeFactory.DAQ deg (CascadeFactory.set_events_done self n) rs)
    as [[res rs'] log] eqn:E.
  cbn [fst snd] in *.
  cbn [CascadeFactory.set_events_done CascadeFactory.eps CascadeFactory.flavors
       CascadeFactory.interaction_types CascadeFactory.num_flavors
       CascadeFactory.num_interaction_types CascadeFactory.num_events
       CascadeFactory.events_done
       CascadeFactory.fractional_energy_in_hadrons_range] in Hcases.
  (* the fraction drawn is not negative *)
  assert (Hfpos : forall v,
             In (Uniform (CascadeFactory.fractional_energy_in_hadrons_range self) v)
                log -> 0 <= v).
  { intros v Hin. rewrite Forall_forall in Hans. specialize (Hans _ Hin).
    rewrite Hfr in Hans.
    destruct (answered_within _ v contract fraction_ordered Hans) as [Hlo _].
    lra. }
  assert (Hnfpos : (0 < CascadeFactory.num_flavors self)%Z).
  { rewrite Hnf, Hlf.
    destruct (CascadeFactory.Param.flavors cfg); [congruence | cbn; lia]. }
  assert (Hnipos : (0 < CascadeFactory.num_interaction_types self)%Z).
  { rewrite Hni, Hli.
    destruct (CascadeFactory.Param.interaction_types cfg); [congruence | cbn; lia]. }
  assert (Hidx : forall count v, (0 < count)%Z -> In (Integer count v) log ->
                                 (- count <= v < count)%Z).
  { intros count v Hpos Hin. rewrite Forall_forall in Hans. specialize (Hans _ Hin).
    pose proof (answered_index count v contract Hpos Hans). lia. }
  destruct Hcases as [(Hdiv & _ & Hlog) | (Hdiv & i & Hrest)].
  { exfalso. apply Qeq_bool_iff in Hdiv. rewrite Heps in Hdiv.
    assert (0 <= f') by (apply Hfpos; rewrite Hlog; cbn; tauto). lra. }
  destruct Hrest as [(Hgf & _ & Hlog) | (flavor & j & Hgf & Hlog & Hrest)].
  { exfalso. apply getitem_None in Hgf. apply Hgf. rewrite <- Hnf.
    apply Hidx; [exact Hnfpos |]. rewrite Hlog. apply in_or_app. right. cbn. tauto. }
  destruct Hrest as [(Hgi & _) | (interaction_type & Hgi & Hres)].
  { exfalso. apply getitem_None in Hgi. apply Hgi. rewrite <- Hni.
    apply Hidx; [exact Hnipos |]. rewrite Hlog. apply in_or_app. right. cbn. tauto. }
  match type of Hres with
  | _ = match CascadeFactory.make_mctree ?v ?vt ?z ?a ?pe ?de ?he _ _ with _ => _ end =>
      destruct (configured_make_mctree cfg self i j flavor interaction_type
                  v vt z a pe de he configured Hgf Hgi) as [tree Ht]
  end.
  rewrite Ht in Hres. subst res log.
  do 3 eexists. split; reflexivity.
Qed.

(** A run with enough fuel for its target ends suspended, with one tree and
    ten draws for each call. *)
Lemma Execute_cascade (k extra : nat) :
  forall (n : Z) (rs : RS),
    Z.max 1 (CascadeFactory.num_events self - n) = Z.of_nat k ->
    let run := Execute (CascadeFactory.DAQ deg) (k + extra)
                       (CascadeFactory.set_events_done self n) rs in
    outcome run = Suspended /\
    List.length (frames run) = k /\
    List.length (draws run) = (10 * k)%nat.
Proof.
  induction k as [| k IH]; intros n rs Hk; [lia |].
  cbv zeta. cbn [Nat.add Execute].
  destruct (DAQ_succeeds n rs) as (tree & rs' & log & E & Hlen).
  rewrite E.
  destruct (CascadeFactory.num_events self <=? n + 1)%Z eqn:Es.
  - apply Z.leb_le in Es. assert (k = O) by lia. subst k.
    cbn. rewrite Hlen. auto.
  - apply Z.leb_gt in Es.
    destruct (IH (n + 1)%Z rs') as (Ho & Hf & Hd); [lia |].
    cbn [frames outcome draws List.length].
    rewrite length_app, Hlen, Hf, Hd, Ho. repeat split. lia.
Qed.

End CascadeRun.

(** X3.  A cascade run completes.  With a random service within its
    contract, names that [Configure] accepts, at least one flavor and one
    interaction type, and a range of the hadronic fraction that is in order
    and not negative, no call of DAQ raises: a run with enough fuel ends
    suspended after exactly [max 1 num_events] trees (one, for a target of
    zero or less), ten draws for each. *)
Theorem cascade_run_completes {RS : Type} `{RandomService RS} (deg : Q)
        (cfg : CascadeFactory.Param.t) (extra : nat) (rs : RS) :
  well_behaved RS ->
  Forall known_flavor (CascadeFactory.Param.flavors cfg) ->
  Forall known_interaction (CascadeFactory.Param.interaction_types cfg) ->
  CascadeFactory.Param.flavors cfg <> [] ->
  CascadeFactory.Param.interaction_types cfg <> [] ->
  ordered (CascadeFactory.Param.fractional_energy_in_hadrons_range cfg) ->
  0 <= fst (CascadeFactory.Param.fractional_energy_in_hadrons_range cfg) ->
  let k := Z.to_nat (Z.max 1 (CascadeFactory.Param.num_events cfg)) in
  let run := CascadeSimulation.main deg cfg (k + extra) rs in
  outcome run = Suspended /\
  List.length (frames run) = k /\
  List.length (draws run) = (10 * k)%nat.
Proof.
  intros Hwb Hkf Hki Hf Hi Hord Hpos k run.
  destruct (Configure_known cfg Hkf Hki) as [self Hc].
  destruct (Configure_counts cfg self Hc) as (_ & _ & Hdone & _ & Hn & _).
  unfold run, CascadeSimulation.main. rewrite Hc.
  pose proof (Execute_cascade deg cfg self Hwb Hc Hf Hi Hord Hpos k extra 0%Z rs)
    as Hrun.
  cbv zeta in Hrun.
  replace (CascadeFactory.set_events_done self 0%Z) with self in Hrun
    by (rewrite <- Hdone; destruct self; reflexivity).
  apply Hrun. rewrite Hn. unfold k. lia.
Qed.

(** The theorem at the default parameters. *)
Lemma cascade_run_completes_witness :
  outcome (CascadeSimulation.main (1 # 60) CascadeFactory.default 1 (Seeded 1337))
  = Suspended /\
  List.length (frames (CascadeSimulation.main (1 # 60) CascadeFactory.default 1
                                              (Seeded 1337))) = 1%nat.
Proof.
  assert (Hkf : Forall known_flavor
                       (CascadeFactory.Param.flavors CascadeFactory.default))
    by (repeat constructor).
  assert (Hki : Forall known_interaction
                       (CascadeFactory.Param.interaction_types CascadeFactory.default))
    by (repeat constructor).
  assert (Hf : CascadeFactory.Param.flavors CascadeFactory.default <> [])
    by discriminate.
  assert (Hi : CascadeFactory.Param.interaction_types CascadeFactory.default <> [])
    by discriminate.
  assert (Hord : ordered (CascadeFactory.Param.fractional_energy_in_hadrons_range
                            CascadeFactory.default))
    by (vm_compute; discriminate).
  assert (Hpos : 0 <= fst (CascadeFactory.Param.fractional_energy_in_hadrons_range
                             CascadeFactory.default))
    by (vm_compute; discriminate).
  destruct (cascade_run_completes (1 # 60) CascadeFactory.default O (Seeded 1337)
              LCG_well_behaved Hkf Hki Hf Hi Hord Hpos) as (Ho & Hl & _).
  split; [exact Ho | exact Hl].
Defined.

(** ** The shape of a cascade tree *)

(** The particles of a tree that is built: the daughter and the hadrons are
    at the vertex of the primary, in ice, at the speed of light. *)
Lemma make_mctree_shape (vertex : I3Position) (vertex_time zenith azimuth : Q)
      (primary_energy daughter_energy hadron_energy : Q)
      (flavor interaction_type : string) (tree : I3MCTree) :
  CascadeFactory.make_mctree vertex vertex_time zenith azimuth
    primary_energy daughter_energy hadron_energy flavor interaction_type
  = inr tree ->
  exists d h,
    children tree = [d; h] /\
    same_vertex (primary tree) d /\ same_vertex (primary tree) h /\
    location_type (primary tree) = InIce /\
    speed (primary tree) = I3Constants.c /\
    shape (primary tree) = Null /\
    type h = Hadrons /\ shape h = Cascade.
Proof.
  unfold CascadeFactory.make_mctree, CascadeFactory.assign_types, same_vertex.
  cbv zeta.
  destruct (String.eqb flavor "numu"); [| destruct (String.eqb flavor "nutau");
    [| destruct (String.eqb flavor "nue"); [| discriminate ] ] ];
    (destruct (String.eqb interaction_type "cc");
     [| destruct (String.eqb interaction_type "nc")]);
    intros E; inversion E; subst; clear E; cbn;
    do 2 eexists; repeat split; reflexivity.
Qed.

(** X4.  Every tree that a cascade run pushes has the primary as its root
    and exactly two children, the daughter and then the hadrons; both are at
    the vertex of the primary (same position, time, direction, speed and
    location); the primary is in ice, at the speed of light, and its shape
    is never set; the hadrons are of type Hadrons and cascade-shaped. *)
Theorem cascade_tree_shape {RS : Type} `{RandomService RS} (deg : Q)
        (cfg : CascadeFactory.Param.t) (fuel : nat) (rs : RS) :
  Forall (fun tree =>
            exists d h,
              children tree = [d; h] /\
              same_vertex (primary tree) d /\ same_vertex (primary tree) h /\
              location_type (primary tree) = InIce /\
              speed (primary tree) = I3Constants.c /\
              shape (primary tree) = Null /\
              type h = Hadrons /\ shape h = Cascade)
         (frames (CascadeSimulation.main deg cfg fuel rs)).
Proof.
  unfold CascadeSimulation.main.
  destruct (CascadeFactory.Configure cfg) as [e | self]; [constructor |].
  apply (Execute_invariant (CascadeFactory.DAQ deg) (fun _ => True) _
                           (fun _ => True)); [| exact I].
  intros s rs0 _.
  destruct (CascadeFactory.DAQ deg s rs0)
    as [[[e | [[tree suspension] self']] rs'] log] eqn:E; cbn [fst];
    [exact I |].
  split; [| exact I].
  destruct (DAQ_inr_inv deg _ _ _ _ _ _ _ E)
    as (u_x & u_y & u_z & u_t & u_a & u_zen & u_e & fraction & i_flavor
        & i_interaction & flavor & interaction_type
        & _ & _ & _ & _ & Ht & _ & _).
  exact (make_mctree_shape _ _ _ _ _ _ _ _ _ _ Ht).
Qed.

(** The theorem at the default parameters, three events. *)
Lemma cascade_tree_shape_witness :
  Forall (fun tree =>
            exists d h,
              children tree = [d; h] /\
              same_vertex (primary tree) d /\ same_vertex (primary tree) h /\
              location_type (primary tree) = InIce /\
              speed (primary tree) = I3Constants.c /\
              shape (primary tree) = Null /\
              type h = Hadrons /\ shape h = Cascade)
         (frames (CascadeSimulation.main (1 # 60) (default_with_events 3) 3
                                         (Seeded 1337))).
Proof.
  exact (cascade_tree_shape (1 # 60) (default_with_events 3) 3 (Seeded 1337)).
Defined.

(** ** The floor under the fraction *)



(** ** More on Configure *)

Lemma lower_ascii_idempotent (ch : ascii) :
  lower_ascii (lower_ascii ch) = lower_ascii ch.
Proof.
  destruct ch as [[] [] [] [] [] [] [] []]; reflexivity.
Qed.

Lemma lower_idempotent (s : string) : lower (lower s) = lower s.
Proof.
  induction s as [| ch s IH]; cbn; [reflexivity |].
  rewrite lower_ascii_idempotent, IH. reflexivity.
Qed.

(** X6.  [Configure] does not see the case of the names: two sets of
    parameters that differ only in the case of the letters of the flavors and
    of the interaction types give the same module, or the same error; so do
    the parameters and the same parameters with their names in lower case. *)
Theorem Configure_ignores_case
        (azimuth_range zenith_range hadron_energy_range fraction_range
         time_range x_range y_range z_range : Q * Q)
        (flavors1 flavors2 interactions1 interactions2 : list string)
        (num_events : Z) :
  map lower flavors1 = map lower flavors2 ->
  map lower interactions1 = map lower interactions2 ->
  CascadeFactory.Configure
    (CascadeFactory.Param.mk azimuth_range zenith_range hadron_energy_range
       fraction_range time_range x_range y_range z_range
       flavors1 interactions1 num_events)
  = CascadeFactory.Configure
      (CascadeFactory.Param.mk azimuth_range zenith_range hadron_energy_range
         fraction_range time_range x_range y_range z_range
         flavors2 interactions2 num_events) /\
  CascadeFactory.Configure
    (CascadeFactory.Param.mk azimuth_range zenith_range hadron_energy_range
       fraction_range time_range x_range y_range z_range
       flavors1 interactions1 num_events)
  = CascadeFactory.Configure
      (CascadeFactory.Param.mk azimuth_range zenith_range hadron_energy_range
         fraction_range time_range x_range y_range z_range
         (map lower flavors1) (map lower interactions1) num_events).
Proof.
  assert (Hgen : forall f1 f2 i1 i2,
             map lower f1 = map lower f2 -> map lower i1 = map lower i2 ->
             CascadeFactory.Configure
               (CascadeFactory.Param.mk azimuth_range zenith_range
                  hadron_energy_range fraction_range time_range x_range y_range
                  z_range f1 i1 num_events)
             = CascadeFactory.Configure
                 (CascadeFactory.Param.mk azimuth_range zenith_range
                    hadron_energy_range fraction_range time_range x_range
                    y_range z_range f2 i2 num_events)).
  { intros f1 f2 i1 i2 Hf Hi. unfold CascadeFactory.Configure. cbv zeta.
    cbn [CascadeFactory.Param.flavors CascadeFactory.Param.interaction_types
         CascadeFactory.Param.azimuth_range CascadeFactory.Param.zenith_range
         CascadeFactory.Param.hadron_energy_range
         CascadeFactory.Param.fractional_energy_in_hadrons_range
         CascadeFactory.Param.time_range CascadeFactory.Param.x_range
         CascadeFactory.Param.y_range CascadeFactory.Param.z_range
         CascadeFactory.Param.num_events].
    assert (Hlf : List.length f1 = List.length f2)
      by (rewrite <- (length_map lower f1), Hf, length_map; reflexivity).
    assert (Hli : List.length i1 = List.length i2)
      by (rewrite <- (length_map lower i1), Hi, length_map; reflexivity).
    rewrite Hf, Hi, Hlf, Hli. reflexivity. }
  intros Hf Hi. split; [apply Hgen; assumption |].
  apply Hgen; rewrite map_map; apply map_ext; intros s;
    symmetry; apply lower_idempotent.
Qed.

(** The theorem at NUE, CC and nue, cc. *)
Lemma Configure_ignores_case_witness :
  CascadeFactory.Configure
    (CascadeFactory.Param.mk (0, 360) (0, 180) (10000, 10000) (0, 1)
       (9000, 12000) (-500, 500) (-500, 500) (-500, 500)
       ["NUE"]%string ["CC"]%string 1%Z)
  = CascadeFactory.Configure
      (CascadeFactory.Param.mk (0, 360) (0, 180) (10000, 10000) (0, 1)
         (9000, 12000) (-500, 500) (-500, 500) (-500, 500)
         ["nue"]%string ["cc"]%string 1%Z).
Proof.
  exact (proj1 (Configure_ignores_case (0, 360) (0, 180) (10000, 10000) (0, 1)
                  (9000, 12000) (-500, 500) (-500, 500) (-500, 500)
                  ["NUE"]%string ["nue"]%string ["CC"]%string ["cc"]%string 1%Z
                  eq_refl eq_refl)).
Defined.




(** ** The construction of an event, outside the known names *)

(** X8.  The construction of the particles, for any two names.  For one of
    the flavors nue, numu, nutau it never raises: with an interaction type
    other than cc and nc the daughter keeps the unknown type of a fresh
    particle, cascade-shaped.  For any other flavor it raises, and what it
    raises is the AttributeError of the message of its last branch, not the
    ValueError that the branch names. *)
Theorem construction_outside_known_names
        (vertex : I3Position) (vertex_time zenith azimuth : Q)
        (primary_energy daughter_energy hadron_energy : Q)
        (flavor interaction_type : string) :
  (In flavor ["nue"; "numu"; "nutau"]%string ->
   exists p d h,
     CascadeFactory.make_mctree vertex vertex_time zenith azimuth
       primary_energy daughter_energy hadron_energy flavor interaction_type
     = inr (mkTree p [d; h]) /\
     (~ In interaction_type ["cc"; "nc"]%string ->
      type d = unknown /\ shape d = Cascade)) /\
  (~ In flavor ["nue"; "numu"; "nutau"]%string ->
   CascadeFactory.make_mctree vertex vertex_time zenith azimuth
     primary_energy daughter_energy hadron_energy flavor interaction_type
   = inl (AttributeError
            "'CascadeFactory' object has no attribute 'particle_type'")).
Proof.
  unfold CascadeFactory.make_mctree, CascadeFactory.assign_types,
    CascadeFactory.daughter_shape.
  cbv zeta. split.
  - intros Hin.
    assert (Hit : ~ In interaction_type ["cc"; "nc"]%string ->
                  String.eqb interaction_type "cc" = false /\
                  String.eqb interaction_type "nc" = false).
    { intros Hno. split; apply String.eqb_neq; intros ->; apply Hno; cbn; auto. }
    destruct Hin as [<- | [<- | [<- | []]]]; cbn [String.eqb Ascii.eqb Bool.eqb];
      (destruct (String.eqb interaction_type "cc") eqn:Ecc;
       [| destruct (String.eqb interaction_type "nc") eqn:Enc]);
      cbn; do 3 eexists; (split; [reflexivity |]); intros Hno;
      destruct (Hit Hno) as [H1 H2]; try discriminate; cbn; auto.
  - intros Hno.
    assert (E1 : String.eqb flavor "numu" = false)
      by (apply String.eqb_neq; intros ->; apply Hno; cbn; auto).
    assert (E2 : String.eqb flavor "nutau" = false)
      by (apply String.eqb_neq; intros ->; apply Hno; cbn; auto).
    assert (E3 : String.eqb flavor "nue" = false)
      by (apply String.eqb_neq; intros ->; apply Hno; cbn; auto).
    rewrite E1, E2, E3. reflexivity.
Qed.

(** The theorem at the flavor numu with the interaction type xc, and at the
    flavor nux. *)
Lemma construction_outside_known_names_witness :
  (exists p d h,
      CascadeFactory.make_mctree (mkPosition 0 0 0) 0 0 0 1 0 1 "numu" "xc"
      = inr (mkTree p [d; h]) /\ type d = unknown /\ shape d = Cascade) /\
  CascadeFactory.make_mctree (mkPosition 0 0 0) 0 0 0 1 0 1 "nux" "cc"
  = inl (AttributeError
           "'CascadeFactory' object has no attribute 'particle_type'").
Proof.
  split.
  - destruct (proj1 (construction_outside_known_names
                       (mkPosition 0 0 0) 0 0 0 1 0 1 "numu" "xc"))
      as (p & d & h & Ht & Hd).
    + cbn. auto.
    + exists p, d, h. split; [exact Ht |]. apply Hd.
      cbn. intros [Hcc | [Hnc | []]]; discriminate.
  - apply (proj2 (construction_outside_known_names
                    (mkPosition 0 0 0) 0 0 0 1 0 1 "nux" "cc")).
    cbn. intros [H1 | [H2 | [H3 | []]]]; discriminate.
Defined.

(** ** The muon and its anchor *)



(** ** Two muon runs with services that answer alike *)




(** ** The distance splits of [main] *)

Lemma insert_sorted_perm (x : Q * Z) (l : list (Q * Z)) :
  Permutation (insert_sorted x l) (x :: l).
Proof.
  induction l as [| y l IH]; cbn; [reflexivity |].
  destruct (Qle_bool (fst x) (fst y)); [reflexivity |].
  rewrite IH. apply perm_swap.
Qed.

Lemma sort_perm (l : list (Q * Z)) :
  Permutation (fold_right insert_sorted [] l) l.
Proof.
  induction l as [| x l IH]; cbn; [reflexivity |].
  rewrite insert_sorted_perm, IH. reflexivity.
Qed.

Lemma map_snd_combine {A B : Type} (a : list A) (b : list B) :
  List.length a = List.length b -> map snd (combine a b) = b.
Proof.
  revert b. induction a as [| x a IH]; intros [| y b] Hlen; cbn in *;
    try reflexivity; try discriminate.
  rewrite IH by lia. reflexivity.
Qed.

(** The indices of [argsort] are those of the array, each once. *)
Lemma argsort_perm (a : list Q) :
  Permutation (argsort a) (map Z.of_nat (seq 0 (List.length a))).
Proof.
  unfold argsort. rewrite sort_perm.
  rewrite map_snd_combine; [reflexivity |].
  rewrite length_map, length_seq. reflexivity.
Qed.

Lemma argsort_In (a : list Q) (i : Z) :
  In i (argsort a) <-> (0 <= i < Z.of_nat (List.length a))%Z.
Proof.
  split.
  - intros Hin. apply (Permutation_in _ (argsort_perm a)) in Hin.
    apply in_map_iff in Hin. destruct Hin as (k & <- & Hk).
    apply in_seq in Hk. lia.
  - intros Hi. apply (Permutation_in _ (Permutation_sym (argsort_perm a))).
    apply in_map_iff. exists (Z.to_nat i). split; [lia |].
    apply in_seq. lia.
Qed.

Lemma argsort_length (a : list Q) : List.length (argsort a) = List.length a.
Proof.
  rewrite (Permutation_length (argsort_perm a)), length_map, length_seq.
  reflexivity.
Qed.

(** [a[order]] raises exactly when an index of [order] is out of range. *)
Lemma take_None (a : list Q) (order : list Z) :
  take a order = None <-> exists i, In i order /\ getitem a i = None.
Proof.
  induction order as [| i order IH]; cbn.
  - split; [discriminate | intros (i & [] & _)].
  - destruct (getitem a i) as [x |] eqn:Ei.
    + destruct (take a order) as [l |] eqn:Et.
      * split; [discriminate |].
        intros (j & [<- | Hin] & Hj); [congruence |].
        assert (Hbad : Some l = None) by (apply IH; eauto).
        discriminate.
      * split; [intros _ | reflexivity].
        destruct (proj1 IH eq_refl) as (j & Hin & Hj). eauto.
    + split; [intros _ | reflexivity]. eauto.
Qed.

(** Reordering an array by the indices that sort another raises exactly when
    the array is the shorter one. *)
Lemma take_argsort_None (a b : list Q) :
  take a (argsort b) = None <-> (List.length a < List.length b)%nat.
Proof.
  rewrite take_None. split.
  - intros (i & Hin & Hnone).
    apply argsort_In in Hin. apply getitem_None in Hnone. lia.
  - intros Hlt.
    exists (Z.of_nat (List.length b) - 1)%Z. split.
    + apply argsort_In. lia.
    + apply getitem_None. lia.
Qed.

Lemma take_argsort_Some (a b : list Q) :
  (List.length b <= List.length a)%nat ->
  exists l, take a (argsort b) = Some l.
Proof.
  intros Hle. destruct (take a (argsort b)) as [l |] eqn:E; [eauto |].
  apply take_argsort_None in E. lia.
Qed.

(** The limits of one value: the value, once for each distance. *)
Lemma multiply_ones (ds : list Q) (td : Value) :
  List.length (atleast_1d td) = 1%nat ->
  exists l, multiply (ones_like ds) td = Some l /\
            List.length l = List.length ds.
Proof.
  intros Hone. destruct td as [t | [| t [| t' l]]]; cbn in Hone; try discriminate;
    cbn [multiply]; eexists; (split; [reflexivity |]);
    unfold ones_like; rewrite !length_map; reflexivity.
Qed.

(** The reordering, case by case: IndexError when an array is too short to
    be reordered, the three arrays otherwise. *)
Lemma reorder_splits_cases (ds td ov : Value) :
  let n := List.length (atleast_1d ds) in
  let doms := List.length (atleast_1d td) in
  let overs := List.length (atleast_1d ov) in
  if ((negb (doms =? 1) && (doms <? n)) || (overs <? n))%nat%bool
  then reorder_splits ds td ov = inl IndexError
  else exists arrays, reorder_splits ds td ov = inr arrays.
Proof.
  cbv zeta. unfold reorder_splits. cbv zeta.
  destruct (take_argsort_Some (atleast_1d ds) (atleast_1d ds) (le_n _))
    as [sorted Hsorted].
  rewrite Hsorted.
  destruct (Nat.eqb (List.length (atleast_1d td)) 1) eqn:Eone; cbn [negb andb orb].
  - apply Nat.eqb_eq in Eone.
    destruct (multiply_ones (atleast_1d ds) td Eone) as (limits & -> & Hlen).
    destruct (take_argsort_Some limits (atleast_1d ds)) as [limits' ->]; [lia |].
    destruct (List.length (atleast_1d ov) <? List.length (atleast_1d ds))%nat
      eqn:Eov.
    + apply Nat.ltb_lt in Eov.
      rewrite (proj2 (take_argsort_None _ _) Eov). reflexivity.
    + apply Nat.ltb_ge in Eov.
      destruct (take_argsort_Some (atleast_1d ov) (atleast_1d ds) Eov)
        as [factors ->].
      eauto.
  - destruct (List.length (atleast_1d td) <? List.length (atleast_1d ds))%nat
      eqn:Etd; cbn [orb].
    + apply Nat.ltb_lt in Etd.
      rewrite (proj2 (take_argsort_None _ _) Etd). reflexivity.
    + apply Nat.ltb_ge in Etd.
      destruct (take_argsort_Some (atleast_1d td) (atleast_1d ds) Etd)
        as [limits ->].
      destruct (List.length (atleast_1d ov) <? List.length (atleast_1d ds))%nat
        eqn:Eov.
      * apply Nat.ltb_lt in Eov.
        rewrite (proj2 (take_argsort_None _ _) Eov). reflexivity.
      * apply Nat.ltb_ge in Eov.
        destruct (take_argsort_Some (atleast_1d ov) (atleast_1d ds) Eov)
          as [factors ->].
        eauto.
Qed.

(** X11.  With distance splits in the configuration file neither script runs
    its tray.  Both raise while the streams are set up: IndexError when
    [threshold_doms] (unless it is one value) or [oversize_factors] has fewer
    values than [distance_splits], and otherwise NameError, for
    [generate_stream_object] is bound nowhere in the two files.  The cascade
    script has drawn nothing by then; the muon script has created its muon,
    seven draws.  Without distance splits both scripts run the tray. *)
Theorem distance_splits_stop_the_scripts {RS : Type} `{RandomService RS}
        (deg : Q) (dir_xyz : I3Direction -> I3Position)
        (cascade_cfg : CascadeFactory.Param.t)
        (muon_cfg : MuonResimulation.Cfg.t)
        (distance_splits threshold_doms oversize_factors : Value)
        (fuel : nat) (rs : RS) :
  let n := List.length (atleast_1d distance_splits) in
  let doms := List.length (atleast_1d threshold_doms) in
  let overs := List.length (atleast_1d oversize_factors) in
  let e := if ((negb (doms =? 1) && (doms <? n)) || (overs <? n))%nat%bool
           then Raise IndexError
           else NameError "generate_stream_object" in
  let splits := Some (distance_splits, threshold_doms, oversize_factors) in
  cascade_script deg cascade_cfg splits fuel rs = SetupFailed e [] rs /\
  (exists muon rs1 made,
      main_muon deg dir_xyz muon_cfg rs = (inr muon, rs1, made) /\
      List.length made = 7%nat /\
      muon_script deg dir_xyz muon_cfg splits fuel rs = SetupFailed e made rs1) /\
  cascade_script deg cascade_cfg None fuel rs
  = Ran (CascadeSimulation.main deg cascade_cfg fuel rs) /\
  muon_script deg dir_xyz muon_cfg None fuel rs
  = Ran (MuonResimulation.main deg dir_xyz muon_cfg fuel rs).
Proof.
  cbv zeta.
  assert (Hstreams : forall names,
             str_in "generate_stream_object" names = false ->
             add_streams names
               (Some (distance_splits, threshold_doms, oversize_factors))
             = inl (if ((negb (List.length (atleast_1d threshold_doms) =? 1)
                         && (List.length (atleast_1d threshold_doms)
                             <? List.length (atleast_1d distance_splits)))
                        || (List.length (atleast_1d oversize_factors)
                            <? List.length (atleast_1d distance_splits)))%nat%bool
                    then Raise IndexError
                    else NameError "generate_stream_object")).
  { intros names Hunbound. unfold add_streams, distance_splits_block.
    pose proof (reorder_splits_cases distance_splits threshold_doms
                  oversize_factors) as Hcases.
    cbv zeta in Hcases.
    destruct ((negb (List.length (atleast_1d threshold_doms) =? 1)
               && (List.length (atleast_1d threshold_doms)
                   <? List.length (atleast_1d distance_splits)))
              || (List.length (atleast_1d oversize_factors)
                  <? List.length (atleast_1d distance_splits)))%nat%bool.
    - rewrite Hcases. reflexivity.
    - destruct Hcases as (arrays & ->).
      unfold global_name. rewrite Hunbound. reflexivity. }
  split; [| split; [| split]].
  - unfold cascade_script. rewrite (Hstreams cascade_names eq_refl). reflexivity.
  - destruct (create_muon_run deg dir_xyz
                (MuonResimulation.Cfg.azimuth_min muon_cfg,
                 MuonResimulation.Cfg.azimuth_max muon_cfg)
                (MuonResimulation.Cfg.zenith_min muon_cfg,
                 MuonResimulation.Cfg.zenith_max muon_cfg)
                (MuonResimulation.Cfg.e_min muon_cfg,
                 MuonResimulation.Cfg.e_max muon_cfg)
                (MuonResimulation.Cfg.anchor_time_range muon_cfg)
                (MuonResimulation.Cfg.anchor_x_range muon_cfg)
                (MuonResimulation.Cfg.anchor_y_range muon_cfg)
                (MuonResimulation.Cfg.anchor_z_range muon_cfg)
                (MuonResimulation.Cfg.length_to_go_back muon_cfg) rs)
      as (u_a & u_zen & u_e & ax & ay & az & u_t & rs1 & E).
    fold (main_muon deg dir_xyz muon_cfg) in E.
    do 3 eexists. split; [exact E |]. split; [reflexivity |].
    unfold muon_script. rewrite E, (Hstreams muon_names eq_refl). reflexivity.
  - reflexivity.
  - unfold muon_script, add_streams.
    destruct (main_muon deg dir_xyz muon_cfg rs) as [[[e | muon] rs1] made] eqn:E;
      [| reflexivity].
    exfalso.
    destruct (create_muon_run deg dir_xyz
                (MuonResimulation.Cfg.azimuth_min muon_cfg,
                 MuonResimulation.Cfg.azimuth_max muon_cfg)
                (MuonResimulation.Cfg.zenith_min muon_cfg,
                 MuonResimulation.Cfg.zenith_max muon_cfg)
                (MuonResimulation.Cfg.e_min muon_cfg,
                 MuonResimulation.Cfg.e_max muon_cfg)
                (MuonResimulation.Cfg.anchor_time_range muon_cfg)
                (MuonResimulation.Cfg.anchor_x_range muon_cfg)
                (MuonResimulation.Cfg.anchor_y_range muon_cfg)
                (MuonResimulation.Cfg.anchor_z_range muon_cfg)
                (MuonResimulation.Cfg.length_to_go_back muon_cfg) rs)
      as (u_a & u_zen & u_e & ax & ay & az & u_t & rs1' & E').
    fold (main_muon deg dir_xyz muon_cfg) in E'. congruence.
Qed.

(** The theorem at three distances with one threshold and three factors:
    the cascade script stops on the name that is not bound. *)
Lemma distance_splits_stop_the_scripts_witness :
  cascade_script (1 # 60) CascadeFactory.default three_splits 3 (Seeded 1337)
  = SetupFailed (NameError "generate_stream_object") [] (Seeded 1337).
Proof.
  exact (proj1 (distance_splits_stop_the_scripts
                  (1 # 60) along_z CascadeFactory.default straight_muon
                  (Numbers [300; 100; 200]) (Number 5) (Numbers [3; 1; 2])
                  3 (Seeded 1337))).
Defined.

(** ** The reordering of the distance splits *)

Lemma getitem_nth (a : list Q) (i : Z) :
  (0 <= i < Z.of_nat (List.length a))%Z ->
  getitem a i = Some (nth (Z.to_nat i) a 0).
Proof.
  intros Hi. unfold getitem. cbv zeta.
  replace (i <? 0)%Z with false by (symmetry; apply Z.ltb_ge; lia).
  cbv iota.
  replace (i <? 0)%Z with false by (symmetry; apply Z.ltb_ge; lia).
  replace (Z.of_nat (List.length a) <=? i)%Z with false
    by (symmetry; apply Z.leb_gt; lia).
  cbn [orb]. apply nth_error_nth'. lia.
Qed.

Lemma take_map (a : list Q) (order : list Z) :
  (forall i, In i order -> (0 <= i < Z.of_nat (List.length a))%Z) ->
  take a order = Some (map (fun i => nth (Z.to_nat i) a 0) order).
Proof.
  induction order as [| i order IH]; intros Hin; cbn; [reflexivity |].
  rewrite getitem_nth by (apply Hin; cbn; auto).
  rewrite IH by (intros j Hj; apply Hin; cbn; auto).
  reflexivity.
Qed.

Lemma take_argsort (a b : list Q) :
  (List.length b <= List.length a)%nat ->
  take a (argsort b) = Some (map (fun i => nth (Z.to_nat i) a 0) (argsort b)).
Proof.
  intros Hle. apply take_map. intros i Hin. apply argsort_In in Hin. lia.
Qed.

(** Insertion keeps a list of pairs in the order of its values. *)
Lemma insert_sorted_sorted (x : Q * Z) (l : list (Q * Z)) :
  StronglySorted (fun p q => fst p <= fst q) l ->
  StronglySorted (fun p q => fst p <= fst q) (insert_sorted x l).
Proof.
  induction 1 as [| y l Hsorted IH Hall]; cbn.
  - repeat constructor.
  - destruct (Qle_bool (fst x) (fst y)) eqn:E.
    + apply Qle_bool_iff in E.
      constructor; [constructor; assumption |].
      constructor; [exact E |].
      eapply Forall_impl; [| exact Hall].
      intros q Hq. cbn in Hq |- *. lra.
    + assert (Hyx : fst y <= fst x).
      { destruct (Qlt_le_dec (fst x) (fst y)) as [Hlt | Hge]; [| exact Hge].
        apply Qlt_le_weak, Qle_bool_iff in Hlt. congruence. }
      constructor; [exact IH |].
      apply (Permutation_Forall (Permutation_sym (insert_sorted_perm x l))).
      constructor; assumption.
Qed.

Lemma sort_sorted (l : list (Q * Z)) :
  StronglySorted (fun p q => fst p <= fst q) (fold_right insert_sorted [] l).
Proof.
  induction l as [| x l IH]; cbn; [constructor |].
  apply insert_sorted_sorted. exact IH.
Qed.

Lemma StronglySorted_map_fst (l : list (Q * Z)) :
  StronglySorted (fun p q => fst p <= fst q) l ->
  StronglySorted Qle (map fst l).
Proof.
  induction 1 as [| y l Hsorted IH Hall]; cbn; constructor; [exact IH |].
  apply Forall_map. exact Hall.
Qed.

(** Each value paired with its index is the item at that index. *)
Lemma indexed_items (a : list Q) :
  Forall (fun p => (0 <= snd p < Z.of_nat (List.length a))%Z /\
                   nth (Z.to_nat (snd p)) a 0 = fst p)
         (combine a (map Z.of_nat (seq 0 (List.length a)))).
Proof.
  apply Forall_forall. intros [v i] Hin.
  destruct (In_nth _ _ (0, 0%Z) Hin) as (k & Hk & Hnth).
  rewrite length_combine, length_map, length_seq, Nat.min_id in Hk.
  rewrite combine_nth in Hnth by (rewrite length_map, length_seq; reflexivity).
  inversion Hnth as [[Hv Hi]]. cbn [fst snd].
  rewrite (nth_indep _ 0%Z (Z.of_nat 0)) by (rewrite length_map, length_seq; exact Hk).
  rewrite map_nth, seq_nth by exact Hk. cbn [Nat.add].
  rewrite Nat2Z.id. split; [lia | reflexivity].
Qed.

(** The array reordered by its own [argsort] is in increasing order. *)
Lemma take_argsort_sorted (a : list Q) :
  StronglySorted Qle (map (fun i => nth (Z.to_nat i) a 0) (argsort a)).
Proof.
  unfold argsort. rewrite map_map.
  set (pairs := combine a (map Z.of_nat (seq 0 (List.length a)))).
  assert (Hitems : Forall (fun p => nth (Z.to_nat (snd p)) a 0 = fst p)
                          (fold_right insert_sorted [] pairs)).
  { apply (Permutation_Forall (Permutation_sym (sort_perm pairs))).
    eapply Forall_impl; [| exact (indexed_items a)].
    intros p [_ Hp]. exact Hp. }
  rewrite (map_ext_in _ fst).
  - apply StronglySorted_map_fst, sort_sorted.
  - intros p Hin. rewrite Forall_forall in Hitems. exact (Hitems p Hin).
Qed.

Lemma combine3_seq (a b c : list Q) :
  List.length b = List.length a -> List.length c = List.length a ->
  combine a (combine b c)
  = map (fun k => (nth k a 0, (nth k b 0, nth k c 0))) (seq 0 (List.length a)).
Proof.
  intros Hb Hc.
  set (f := fun k : nat => (nth k a 0, (nth k b 0, nth k c 0))).
  apply (nth_ext _ _ (0, (0, 0)) (0, (0, 0))).
  - rewrite !length_combine, length_map, length_seq. lia.
  - intros k Hk.
    rewrite !length_combine in Hk.
    rewrite combine_nth by (rewrite length_combine; lia).
    rewrite combine_nth by lia.
    rewrite (nth_indep (map f _) (0, (0, 0)) (f O))
      by (rewrite length_map, length_seq; lia).
    rewrite map_nth, seq_nth by lia. reflexivity.
Qed.

Lemma combine3_map {A : Type} (f g h : A -> Q) (l : list A) :
  combine (map f l) (combine (map g l) (map h l))
  = map (fun x => (f x, (g x, h x))) l.
Proof.
  induction l as [| x l IH]; cbn; [reflexivity |]. rewrite IH. reflexivity.
Qed.

(** Three arrays of one length, reordered by the indices that sort the
    first: the first is in increasing order, and the triples are those of
    before. *)
Lemma reorder_three (a b c : list Q) :
  List.length b = List.length a -> List.length c = List.length a ->
  exists a' b' c',
    take a (argsort a) = Some a' /\ take b (argsort a) = Some b' /\
    take c (argsort a) = Some c' /\
    StronglySorted Qle a' /\
    Permutation (combine a' (combine b' c')) (combine a (combine b c)).
Proof.
  intros Hb Hc.
  do 3 eexists.
  split; [apply take_argsort; lia |].
  split; [apply take_argsort; lia |].
  split; [apply take_argsort; lia |].
  split; [apply take_argsort_sorted |].
  rewrite combine3_map, (combine3_seq a b c Hb Hc).
  rewrite (Permutation_map _ (argsort_perm a)), map_map.
  erewrite map_ext; [reflexivity |].
  intros k. cbn beta. rewrite Nat2Z.id. reflexivity.
Qed.

(** X12.  What the block of the distance splits computes before its call.
    For as many oversize factors as distances, and as many thresholds as
    distances or one threshold for all, the three arrays are reordered
    together by increasing distance: the distances come out in increasing
    order, and every distance keeps its threshold and its oversize factor.
    One threshold is repeated for every distance. *)
Theorem splits_reordered_together
        (distance_splits threshold_doms oversize_factors : Value) :
  let distances := atleast_1d distance_splits in
  let limits := atleast_1d threshold_doms in
  let factors := atleast_1d oversize_factors in
  List.length factors = List.length distances ->
  List.length limits = List.length distances \/ List.length limits = 1%nat ->
  exists all_limits distances' limits' factors',
    reorder_splits distance_splits threshold_doms oversize_factors
    = inr (distances', limits', factors') /\
    StronglySorted Qle distances' /\
    Permutation (combine distances' (combine limits' factors'))
                (combine distances (combine all_limits factors)) /\
    List.length all_limits = List.length distances /\
    (List.length limits <> 1%nat -> all_limits = limits) /\
    (forall t, limits = [t] -> Forall (fun x => x == t) all_limits).
Proof.
  intros distances limits factors Hf Hl.
  unfold reorder_splits. cbv zeta.
  fold distances limits factors.
  destruct (Nat.eqb (List.length limits) 1) eqn:Eone.
  - apply Nat.eqb_eq in Eone.
    destruct (multiply_ones distances threshold_doms Eone) as (all_limits & Hm & Hlen).
    rewrite Hm.
    destruct (reorder_three distances all_limits factors Hlen Hf)
      as (a' & b' & c' & -> & -> & -> & Hsorted & Hperm).
    exists all_limits, a', b', c'.
    split; [reflexivity |]. split; [exact Hsorted |]. split; [exact Hperm |].
    split; [exact Hlen |]. split; [intros Hne; congruence |].
    intros t Ht.
    assert (Hall : all_limits = map (fun x => x * t) (ones_like distances)).
    { unfold limits in Ht.
      destruct threshold_doms as [t' | l]; cbn in Ht, Hm.
      - inversion Ht; subst. congruence.
      - subst l. cbn in Hm. congruence. }
    rewrite Hall. unfold ones_like. rewrite map_map.
    apply Forall_map, Forall_forall. intros x _. ring.
  - apply Nat.eqb_neq in Eone.
    destruct Hl as [Hl | Hl]; [| congruence].
    destruct (reorder_three distances limits factors Hl Hf)
      as (a' & b' & c' & -> & -> & -> & Hsorted & Hperm).
    exists limits, a', b', c'.
    split; [reflexivity |]. split; [exact Hsorted |]. split; [exact Hperm |].
    split; [exact Hl |]. split; [reflexivity |].
    intros t Ht. rewrite Ht in Eone. cbn in Eone. congruence.
Qed.

(** The theorem at the distances 300, 100, 200 with one threshold, 5, and
    the factors 3, 1, 2. *)
Lemma splits_reordered_together_witness :
  reorder_splits (Numbers [300; 100; 200]) (Number 5) (Numbers [3; 1; 2])
  = inr ([100; 200; 300], [5; 5; 5], [1; 2; 3]).
Proof.
  destruct (splits_reordered_together
              (Numbers [300; 100; 200]) (Number 5) (Numbers [3; 1; 2])
              eq_refl (or_intror eq_refl))
    as (all_limits & d' & l' & f' & E & _).
  rewrite E. vm_compute in E. inversion E. reflexivity.
Defined.


(** ** The name of the output file *)

Lemma replace_spaces_length (s : string) :
  String.length (replace_spaces s) = String.length s.
Proof.
  induction s as [| ch s IH]; cbn; [reflexivity |]. rewrite IH. reflexivity.
Qed.

Lemma replace_spaces_get (s : string) (i : nat) :
  String.get i (replace_spaces s)
  = match String.get i s with
    | Some ch => Some (if Ascii.eqb ch " " then "0"%char else ch)
    | None => None
    end.
Proof.
  revert i. induction s as [| ch s IH]; intros i; cbn; [reflexivity |].
  destruct i as [| i]; [reflexivity | apply IH].
Qed.

(** X13.  The name of the output file is the pattern chosen by the flag,
    formatted, with every space turned into the digit zero: it has the
    length of the formatted pattern and the same characters except at the
    spaces, it holds no space, and a formatted pattern without spaces is
    kept as it is. *)
Theorem outfile_has_no_space (format : string -> string)
        (scratchfile_pattern outfile_pattern : string) (scratch : bool) :
  let formatted :=
    format (if scratch then scratchfile_pattern else outfile_pattern) in
  let name := outfile format scratchfile_pattern outfile_pattern scratch in
  String.length name = String.length formatted /\
  (forall i, String.get i name <> Some " "%char) /\
  (forall i, String.get i formatted = Some " "%char ->
             String.get i name = Some "0"%char) /\
  (forall i ch, String.get i formatted = Some ch -> ch <> " "%char ->
                String.get i name = Some ch) /\
  ((forall i, String.get i formatted <> Some " "%char) -> name = formatted).
Proof.
  cbv zeta.
  assert (Hname : outfile format scratchfile_pattern outfile_pattern scratch
                  = replace_spaces
                      (format (if scratch then scratchfile_pattern
                               else outfile_pattern)))
    by (unfold outfile; destruct scratch; reflexivity).
  rewrite Hname.
  set (formatted := format (if scratch then scratchfile_pattern
                            else outfile_pattern)).
  split; [apply replace_spaces_length |].
  split; [| split; [| split]].
  - intros i. rewrite replace_spaces_get.
    destruct (String.get i formatted) as [ch |]; [| discriminate].
    destruct (Ascii.eqb ch " ") eqn:E; [discriminate |].
    apply Ascii.eqb_neq in E. congruence.
  - intros i Hi. rewrite replace_spaces_get, Hi. reflexivity.
  - intros i ch Hi Hch. rewrite replace_spaces_get, Hi.
    apply Ascii.eqb_neq in Hch. rewrite Hch. reflexivity.
  - intros Hnone. clearbody formatted.
    induction formatted as [| ch s IH]; cbn; [reflexivity |].
    assert (Hch : Ascii.eqb ch " " = false).
    { apply Ascii.eqb_neq. intros ->. apply (Hnone O). reflexivity. }
    rewrite Hch, IH; [reflexivity |].
    intros i. exact (Hnone (S i)).
Qed.

(** The theorem at a pattern formatted with the run number 42 in a field of
    six: the name has the sixteen characters of the formatted pattern. *)
Lemma outfile_has_no_space_witness :
  String.length
    (outfile (fun pattern => (pattern ++ "    42.i3")%string)
             "Level0_" "Final_" true)
  = 16%nat.
Proof.
  exact (proj1 (outfile_has_no_space
                  (fun pattern => (pattern ++ "    42.i3")%string)
                  "Level0_" "Final_" true)).
Defined.

(** ** The events do not depend on how many are asked for *)

Section Target.

Context {RS : Type} `{RandomService RS}.
Variable deg : Q.

(** A call with another target: the same tree, the same draws and the same
    service; only the request for suspension follows the target. *)
Lemma DAQ_set_num_events (self : CascadeFactory.t) (target : Z) (rs : RS) :
  CascadeFactory.DAQ deg (set_num_events self target) rs
  = match CascadeFactory.DAQ deg self rs with
    | (inl e, rs', log) => (inl e, rs', log)
    | (inr (tree, _, self'), rs', log) =>
        (inr (tree, (target <=? CascadeFactory.events_done self + 1)%Z,
              set_num_events self' target), rs', log)
    end.
Proof.
  unfold_sampling.
  cbn [set_num_events CascadeFactory.x_range CascadeFactory.y_range
       CascadeFactory.z_range CascadeFactory.time_range
       CascadeFactory.azimuth_range CascadeFactory.zenith_range
       CascadeFactory.hadron_energy_range
       CascadeFactory.fractional_energy_in_hadrons_range
       CascadeFactory.eps CascadeFactory.flavors CascadeFactory.num_flavors
       CascadeFactory.interaction_types CascadeFactory.num_interaction_types].
  repeat match goal with
         | |- context [uniform ?a ?b ?r] =>
             destruct (uniform a b r) as [? ?]; cbv beta iota zeta
         end.
  destruct (Qeq_bool _ 0); [reflexivity |]. cbv beta iota zeta.
  match goal with
  | |- context [integer ?n ?r] => destruct (integer n r) as [? ?]
  end.
  cbv beta iota zeta.
  destruct (getitem (CascadeFactory.flavors self) _); [| reflexivity].
  cbv beta iota zeta.
  match goal with
  | |- context [integer ?n ?r] => destruct (integer n r) as [? ?]
  end.
  cbv beta iota zeta.
  destruct (getitem (CascadeFactory.interaction_types self) _); [| reflexivity].
  cbv beta iota zeta.
  destruct (CascadeFactory.make_mctree _ _ _ _ _ _ _ _ _); reflexivity.
Qed.

(** With a larger target a run pushes the same trees, and then more. *)
Lemma Execute_larger_target (target : Z) (fuel : nat) :
  forall (self : CascadeFactory.t) (rs : RS),
    (CascadeFactory.num_events self <= target)%Z ->
    exists rest,
      frames (Execute (CascadeFactory.DAQ deg) fuel (set_num_events self target) rs)
      = frames (Execute (CascadeFactory.DAQ deg) fuel self rs) ++ rest.
Proof.
  induction fuel as [| fuel IH]; intros self rs Hle.
  - exists []. reflexivity.
  - cbn [Execute]. rewrite DAQ_set_num_events.
    destruct (CascadeFactory.DAQ deg self rs)
      as [[[e | [[tree suspension] self1]] rs1] log] eqn:E.
    + exists []. reflexivity.
    + destruct (DAQ_counts deg _ _ _ _ _ _ _ E) as (Hc & Ht & Hs).
      destruct (target <=? CascadeFactory.events_done self + 1)%Z eqn:Et.
      * apply Z.leb_le in Et.
        assert (Hsusp : suspension = true) by (rewrite Hs; apply Z.leb_le; lia).
        clear Hs. subst suspension. exists []. reflexivity.
      * destruct (IH self1 rs1) as [rest Hrest]; [lia |].
        destruct suspension; cbn [frames].
        -- eexists. cbn. reflexivity.
        -- rewrite Hrest. exists rest. reflexivity.
Qed.

End Target.

(** X14.  The events of a cascade run do not depend on the number of events
    asked for: with the same random service and the same parameters but a
    larger [num_events], a run pushes the same trees, in the same order, and
    then further ones. *)
Theorem more_events_only_append {RS : Type} `{RandomService RS} (deg : Q)
        (azimuth_range zenith_range hadron_energy_range fraction_range
         time_range x_range y_range z_range : Q * Q)
        (flavors interaction_types : list string)
        (fewer more : Z) (fuel : nat) (rs : RS) :
  (fewer <= more)%Z ->
  exists rest,
    frames (CascadeSimulation.main deg
              (CascadeFactory.Param.mk azimuth_range zenith_range
                 hadron_energy_range fraction_range time_range x_range y_range
                 z_range flavors interaction_types more) fuel rs)
    = frames (CascadeSimulation.main deg
                (CascadeFactory.Param.mk azimuth_range zenith_range
                   hadron_energy_range fraction_range time_range x_range y_range
                   z_range flavors interaction_types fewer) fuel rs)
      ++ rest.
Proof.
  intros Hle. unfold CascadeSimulation.main, CascadeFactory.Configure.
  cbv zeta.
  cbn [CascadeFactory.Param.flavors CascadeFactory.Param.interaction_types
       CascadeFactory.Param.azimuth_range CascadeFactory.Param.zenith_range
       CascadeFactory.Param.hadron_energy_range
       CascadeFactory.Param.fractional_energy_in_hadrons_range
       CascadeFactory.Param.time_range CascadeFactory.Param.x_range
       CascadeFactory.Param.y_range CascadeFactory.Param.z_range
       CascadeFactory.Param.num_events].
  destruct (CascadeFactory.sanity_check "Interaction" _ _);
    [exists []; reflexivity |].
  destruct (CascadeFactory.sanity_check "Flavor" _ _);
    [exists []; reflexivity |].
  match goal with
  | |- ex (fun rest => frames (Execute _ fuel _ rs)
                       = frames (Execute _ fuel ?s rs) ++ rest) =>
      destruct (Execute_larger_target deg more fuel s rs) as [rest Hrest];
      [cbn; exact Hle | exists rest; exact Hrest]
  end.
Qed.

(** The theorem at the default parameters, for one event and for three. *)
Lemma more_events_only_append_witness :
  exists rest,
    frames (CascadeSimulation.main (1 # 60) (default_with_events 3) 3
                                   (Seeded 1337))
    = frames (CascadeSimulation.main (1 # 60) (default_with_events 1) 3
                                     (Seeded 1337)) ++ rest.
Proof.
  assert (Hle : (1 <= 3)%Z) by lia.
  exact (more_events_only_append (1 # 60)
           (0, 360) (0, 180) (10000, 10000) (0, 1) (9000, 12000)
           (-500, 500) (-500, 500) (-500, 500)
           ["NuE"; "NuMu"; "NuTau"]%string ["CC"; "NC"]%string
           1%Z 3%Z 3%nat (Seeded 1337) Hle).
Defined.
